(** * Shallow embedding of dlrover's DistributedJobManager
    (dlrover/python/master/node/dist_job_manager.py).

    Node state lives in one NodeStore (the job context), a list of
    nodes keyed by (type, id).  Stateful methods of the manager run in a
    small state-and-trace monad: the state is the manager's store and
    flags, the trace records the calls into external collaborators
    (Kubernetes queries, scaler, job optimizer, event reporter). *)

From Stdlib Require Import String Ascii ZArith List Bool Lia.
Import ListNotations.
Open Scope Z_scope.
Open Scope string_scope.

(** ** Constants (dlrover.python.common.constants) *)

Inductive NodeType := Worker | PS | Chief | Evaluator | Master.
Scheme Equality for NodeType.

Inductive NodeStatus :=
  Initial | Pending | Running | Succeeded | Failed | Finished | Deleted.
Scheme Equality for NodeStatus.

(** [NodeExitReason]; [NoExit] stands for an empty exit reason. *)
Inductive NodeExitReason :=
  NoExit | FatalError | OOM | Killed | NoHeartbeat | DiagFail
| Relaunched | HardwareError | UnknownError.
Scheme Equality for NodeExitReason.

(** [NodeEventType] of watcher events ([ADDED], [MODIFIED], [DELETED]),
    the master-synthesised ["exit"], and the events reported by the
    training agent. *)
Inductive NodeEventType :=
  EvAdded | EvModified | EvDeleted | EvExit
| EvSucceededExited | EvFailedExited | EvNodeCheckSucceeded
| EvNodeCheckFailed | EvNoReport.
Scheme Equality for NodeEventType.

Inductive JobStage := JobInit | JobRunning | JobStopping.
Scheme Equality for JobStage.

Inductive JobExitReason :=
  ExitNone | NodeCheckFailed | PendingTimeout | UncompletedTimeout.
Scheme Equality for JobExitReason.

Definition _MAX_POD_RELAUNCH_COUNT : Z := 5.

(** ** Node (dlrover.python.common.node.Node), the fields the manager uses *)

Record Node := mkNode {
  n_type : NodeType;
  n_id : Z;
  rank_index : Z;
  name : string;
  status : NodeStatus;
  exit_reason : NodeExitReason;
  relaunch_count : Z;
  max_relaunch_count : Z;
  relaunchable : bool;
  is_released : bool;
  critical : bool;
  is_recovered_oom : bool;
  config_memory : Z;             (* node.config_resource.memory, MiB *)
  start_time : option Z;         (* datetime or None, as a timestamp *)
  create_time : option Z;
  heartbeat_time : Z;
  host_name : string;
  host_ip : string;
  restart_training : bool;
  reported_status : NodeEventType;
  service_addr : string;
  eval_time : Z
}.

(** Record update helpers, one per field the manager writes
    ([node.f = v] in the source). *)
Definition set_n_id (v : Z) (n : Node) : Node :=
  {| n_type := n.(n_type); n_id := v; rank_index := n.(rank_index); name := n.(name); status := n.(status); exit_reason := n.(exit_reason); relaunch_count := n.(relaunch_count); max_relaunch_count := n.(max_relaunch_count); relaunchable := n.(relaunchable); is_released := n.(is_released); critical := n.(critical); is_recovered_oom := n.(is_recovered_oom); config_memory := n.(config_memory); start_time := n.(start_time); create_time := n.(create_time); heartbeat_time := n.(heartbeat_time); host_name := n.(host_name); host_ip := n.(host_ip); restart_training := n.(restart_training); reported_status := n.(reported_status); service_addr := n.(service_addr); eval_time := n.(eval_time) |}.
Definition set_name (v : string) (n : Node) : Node :=
  {| n_type := n.(n_type); n_id := n.(n_id); rank_index := n.(rank_index); name := v; status := n.(status); exit_reason := n.(exit_reason); relaunch_count := n.(relaunch_count); max_relaunch_count := n.(max_relaunch_count); relaunchable := n.(relaunchable); is_released := n.(is_released); critical := n.(critical); is_recovered_oom := n.(is_recovered_oom); config_memory := n.(config_memory); start_time := n.(start_time); create_time := n.(create_time); heartbeat_time := n.(heartbeat_time); host_name := n.(host_name); host_ip := n.(host_ip); restart_training := n.(restart_training); reported_status := n.(reported_status); service_addr := n.(service_addr); eval_time := n.(eval_time) |}.
Definition set_status (v : NodeStatus) (n : Node) : Node :=
  {| n_type := n.(n_type); n_id := n.(n_id); rank_index := n.(rank_index); name := n.(name); status := v; exit_reason := n.(exit_reason); relaunch_count := n.(relaunch_count); max_relaunch_count := n.(max_relaunch_count); relaunchable := n.(relaunchable); is_released := n.(is_released); critical := n.(critical); is_recovered_oom := n.(is_recovered_oom); config_memory := n.(config_memory); start_time := n.(start_time); create_time := n.(create_time); heartbeat_time := n.(heartbeat_time); host_name := n.(host_name); host_ip := n.(host_ip); restart_training := n.(restart_training); reported_status := n.(reported_status); service_addr := n.(service_addr); eval_time := n.(eval_time) |}.
Definition set_exit_reason (v : NodeExitReason) (n : Node) : Node :=
  {| n_type := n.(n_type); n_id := n.(n_id); rank_index := n.(rank_index); name := n.(name); status := n.(status); exit_reason := v; relaunch_count := n.(relaunch_count); max_relaunch_count := n.(max_relaunch_count); relaunchable := n.(relaunchable); is_released := n.(is_released); critical := n.(critical); is_recovered_oom := n.(is_recovered_oom); config_memory := n.(config_memory); start_time := n.(start_time); create_time := n.(create_time); heartbeat_time := n.(heartbeat_time); host_name := n.(host_name); host_ip := n.(host_ip); restart_training := n.(restart_training); reported_status := n.(reported_status); service_addr := n.(service_addr); eval_time := n.(eval_time) |}.
Definition set_relaunch_count (v : Z) (n : Node) : Node :=
  {| n_type := n.(n_type); n_id := n.(n_id); rank_index := n.(rank_index); name := n.(name); status := n.(status); exit_reason := n.(exit_reason); relaunch_count := v; max_relaunch_count := n.(max_relaunch_count); relaunchable := n.(relaunchable); is_released := n.(is_released); critical := n.(critical); is_recovered_oom := n.(is_recovered_oom); config_memory := n.(config_memory); start_time := n.(start_time); create_time := n.(create_time); heartbeat_time := n.(heartbeat_time); host_name := n.(host_name); host_ip := n.(host_ip); restart_training := n.(restart_training); reported_status := n.(reported_status); service_addr := n.(service_addr); eval_time := n.(eval_time) |}.
Definition set_relaunchable (v : bool) (n : Node) : Node :=
  {| n_type := n.(n_type); n_id := n.(n_id); rank_index := n.(rank_index); name := n.(name); status := n.(status); exit_reason := n.(exit_reason); relaunch_count := n.(relaunch_count); max_relaunch_count := n.(max_relaunch_count); relaunchable := v; is_released := n.(is_released); critical := n.(critical); is_recovered_oom := n.(is_recovered_oom); config_memory := n.(config_memory); start_time := n.(start_time); create_time := n.(create_time); heartbeat_time := n.(heartbeat_time); host_name := n.(host_name); host_ip := n.(host_ip); restart_training := n.(restart_training); reported_status := n.(reported_status); service_addr := n.(service_addr); eval_time := n.(eval_time) |}.
Definition set_is_released (v : bool) (n : Node) : Node :=
  {| n_type := n.(n_type); n_id := n.(n_id); rank_index := n.(rank_index); name := n.(name); status := n.(status); exit_reason := n.(exit_reason); relaunch_count := n.(relaunch_count); max_relaunch_count := n.(max_relaunch_count); relaunchable := n.(relaunchable); is_released := v; critical := n.(critical); is_recovered_oom := n.(is_recovered_oom); config_memory := n.(config_memory); start_time := n.(start_time); create_time := n.(create_time); heartbeat_time := n.(heartbeat_time); host_name := n.(host_name); host_ip := n.(host_ip); restart_training := n.(restart_training); reported_status := n.(reported_status); service_addr := n.(service_addr); eval_time := n.(eval_time) |}.
Definition set_critical (v : bool) (n : Node) : Node :=
  {| n_type := n.(n_type); n_id := n.(n_id); rank_index := n.(rank_index); name := n.(name); status := n.(status); exit_reason := n.(exit_reason); relaunch_count := n.(relaunch_count); max_relaunch_count := n.(max_relaunch_count); relaunchable := n.(relaunchable); is_released := n.(is_released); critical := v; is_recovered_oom := n.(is_recovered_oom); config_memory := n.(config_memory); start_time := n.(start_time); create_time := n.(create_time); heartbeat_time := n.(heartbeat_time); host_name := n.(host_name); host_ip := n.(host_ip); restart_training := n.(restart_training); reported_status := n.(reported_status); service_addr := n.(service_addr); eval_time := n.(eval_time) |}.
Definition set_is_recovered_oom (v : bool) (n : Node) : Node :=
  {| n_type := n.(n_type); n_id := n.(n_id); rank_index := n.(rank_index); name := n.(name); status := n.(status); exit_reason := n.(exit_reason); relaunch_count := n.(relaunch_count); max_relaunch_count := n.(max_relaunch_count); relaunchable := n.(relaunchable); is_released := n.(is_released); critical := n.(critical); is_recovered_oom := v; config_memory := n.(config_memory); start_time := n.(start_time); create_time := n.(create_time); heartbeat_time := n.(heartbeat_time); host_name := n.(host_name); host_ip := n.(host_ip); restart_training := n.(restart_training); reported_status := n.(reported_status); service_addr := n.(service_addr); eval_time := n.(eval_time) |}.
Definition set_config_memory (v : Z) (n : Node) : Node :=
  {| n_type := n.(n_type); n_id := n.(n_id); rank_index := n.(rank_index); name := n.(name); status := n.(status); exit_reason := n.(exit_reason); relaunch_count := n.(relaunch_count); max_relaunch_count := n.(max_relaunch_count); relaunchable := n.(relaunchable); is_released := n.(is_released); critical := n.(critical); is_recovered_oom := n.(is_recovered_oom); config_memory := v; start_time := n.(start_time); create_time := n.(create_time); heartbeat_time := n.(heartbeat_time); host_name := n.(host_name); host_ip := n.(host_ip); restart_training := n.(restart_training); reported_status := n.(reported_status); service_addr := n.(service_addr); eval_time := n.(eval_time) |}.
Definition set_start_time (v : option Z) (n : Node) : Node :=
  {| n_type := n.(n_type); n_id := n.(n_id); rank_index := n.(rank_index); name := n.(name); status := n.(status); exit_reason := n.(exit_reason); relaunch_count := n.(relaunch_count); max_relaunch_count := n.(max_relaunch_count); relaunchable := n.(relaunchable); is_released := n.(is_released); critical := n.(critical); is_recovered_oom := n.(is_recovered_oom); config_memory := n.(config_memory); start_time := v; create_time := n.(create_time); heartbeat_time := n.(heartbeat_time); host_name := n.(host_name); host_ip := n.(host_ip); restart_training := n.(restart_training); reported_status := n.(reported_status); service_addr := n.(service_addr); eval_time := n.(eval_time) |}.
Definition set_create_time (v : option Z) (n : Node) : Node :=
  {| n_type := n.(n_type); n_id := n.(n_id); rank_index := n.(rank_index); name := n.(name); status := n.(status); exit_reason := n.(exit_reason); relaunch_count := n.(relaunch_count); max_relaunch_count := n.(max_relaunch_count); relaunchable := n.(relaunchable); is_released := n.(is_released); critical := n.(critical); is_recovered_oom := n.(is_recovered_oom); config_memory := n.(config_memory); start_time := n.(start_time); create_time := v; heartbeat_time := n.(heartbeat_time); host_name := n.(host_name); host_ip := n.(host_ip); restart_training := n.(restart_training); reported_status := n.(reported_status); service_addr := n.(service_addr); eval_time := n.(eval_time) |}.
Definition set_heartbeat_time (v : Z) (n : Node) : Node :=
  {| n_type := n.(n_type); n_id := n.(n_id); rank_index := n.(rank_index); name := n.(name); status := n.(status); exit_reason := n.(exit_reason); relaunch_count := n.(relaunch_count); max_relaunch_count := n.(max_relaunch_count); relaunchable := n.(relaunchable); is_released := n.(is_released); critical := n.(critical); is_recovered_oom := n.(is_recovered_oom); config_memory := n.(config_memory); start_time := n.(start_time); create_time := n.(create_time); heartbeat_time := v; host_name := n.(host_name); host_ip := n.(host_ip); restart_training := n.(restart_training); reported_status := n.(reported_status); service_addr := n.(service_addr); eval_time := n.(eval_time) |}.
Definition set_host_name (v : string) (n : Node) : Node :=
  {| n_type := n.(n_type); n_id := n.(n_id); rank_index := n.(rank_index); name := n.(name); status := n.(status); exit_reason := n.(exit_reason); relaunch_count := n.(relaunch_count); max_relaunch_count := n.(max_relaunch_count); relaunchable := n.(relaunchable); is_released := n.(is_released); critical := n.(critical); is_recovered_oom := n.(is_recovered_oom); config_memory := n.(config_memory); start_time := n.(start_time); create_time := n.(create_time); heartbeat_time := n.(heartbeat_time); host_name := v; host_ip := n.(host_ip); restart_training := n.(restart_training); reported_status := n.(reported_status); service_addr := n.(service_addr); eval_time := n.(eval_time) |}.
Definition set_host_ip (v : string) (n : Node) : Node :=
  {| n_type := n.(n_type); n_id := n.(n_id); rank_index := n.(rank_index); name := n.(name); status := n.(status); exit_reason := n.(exit_reason); relaunch_count := n.(relaunch_count); max_relaunch_count := n.(max_relaunch_count); relaunchable := n.(relaunchable); is_released := n.(is_released); critical := n.(critical); is_recovered_oom := n.(is_recovered_oom); config_memory := n.(config_memory); start_time := n.(start_time); create_time := n.(create_time); heartbeat_time := n.(heartbeat_time); host_name := n.(host_name); host_ip := v; restart_training := n.(restart_training); reported_status := n.(reported_status); service_addr := n.(service_addr); eval_time := n.(eval_time) |}.
Definition set_restart_training (v : bool) (n : Node) : Node :=
  {| n_type := n.(n_type); n_id := n.(n_id); rank_index := n.(rank_index); name := n.(name); status := n.(status); exit_reason := n.(exit_reason); relaunch_count := n.(relaunch_count); max_relaunch_count := n.(max_relaunch_count); relaunchable := n.(relaunchable); is_released := n.(is_released); critical := n.(critical); is_recovered_oom := n.(is_recovered_oom); config_memory := n.(config_memory); start_time := n.(start_time); create_time := n.(create_time); heartbeat_time := n.(heartbeat_time); host_name := n.(host_name); host_ip := n.(host_ip); restart_training := v; reported_status := n.(reported_status); service_addr := n.(service_addr); eval_time := n.(eval_time) |}.
Definition set_reported_status (v : NodeEventType) (n : Node) : Node :=
  {| n_type := n.(n_type); n_id := n.(n_id); rank_index := n.(rank_index); name := n.(name); status := n.(status); exit_reason := n.(exit_reason); relaunch_count := n.(relaunch_count); max_relaunch_count := n.(max_relaunch_count); relaunchable := n.(relaunchable); is_released := n.(is_released); critical := n.(critical); is_recovered_oom := n.(is_recovered_oom); config_memory := n.(config_memory); start_time := n.(start_time); create_time := n.(create_time); heartbeat_time := n.(heartbeat_time); host_name := n.(host_name); host_ip := n.(host_ip); restart_training := n.(restart_training); reported_status := v; service_addr := n.(service_addr); eval_time := n.(eval_time) |}.
Definition set_service_addr (v : string) (n : Node) : Node :=
  {| n_type := n.(n_type); n_id := n.(n_id); rank_index := n.(rank_index); name := n.(name); status := n.(status); exit_reason := n.(exit_reason); relaunch_count := n.(relaunch_count); max_relaunch_count := n.(max_relaunch_count); relaunchable := n.(relaunchable); is_released := n.(is_released); critical := n.(critical); is_recovered_oom := n.(is_recovered_oom); config_memory := n.(config_memory); start_time := n.(start_time); create_time := n.(create_time); heartbeat_time := n.(heartbeat_time); host_name := n.(host_name); host_ip := n.(host_ip); restart_training := n.(restart_training); reported_status := n.(reported_status); service_addr := v; eval_time := n.(eval_time) |}.
Definition set_eval_time (v : Z) (n : Node) : Node :=
  {| n_type := n.(n_type); n_id := n.(n_id); rank_index := n.(rank_index); name := n.(name); status := n.(status); exit_reason := n.(exit_reason); relaunch_count := n.(relaunch_count); max_relaunch_count := n.(max_relaunch_count); relaunchable := n.(relaunchable); is_released := n.(is_released); critical := n.(critical); is_recovered_oom := n.(is_recovered_oom); config_memory := n.(config_memory); start_time := n.(start_time); create_time := n.(create_time); heartbeat_time := n.(heartbeat_time); host_name := n.(host_name); host_ip := n.(host_ip); restart_training := n.(restart_training); reported_status := n.(reported_status); service_addr := n.(service_addr); eval_time := v |}.

Definition node_key (n : Node) : NodeType * Z := (n.(n_type), n.(n_id)).

Definition same_key (t : NodeType) (i : Z) (n : Node) : bool :=
  NodeType_beq n.(n_type) t && Z.eqb n.(n_id) i.

(** [Node.is_succeeded_and_exited]: the agent itself reported a
    successful exit ([reported_status] holds the reported event type). *)
Definition is_succeeded_and_exited (n : Node) : bool :=
  NodeEventType_beq n.(reported_status) EvSucceededExited.

(** Modelled from the spec: [Node.exited] (node.py, not under src/).
    The spec does not define it; it is taken as the pod having ended by
    itself: [succeeded], [failed] or [finished].  A [deleted] node is not
    exited: deletion is the release marker the manager sets itself
    (spec 3: deletion only sets [is_released] and status [deleted]). *)
Definition exited (n : Node) : bool :=
  match n.(status) with
  | Succeeded | Failed | Finished => true
  | _ => false
  end.

Record NodeEvent := mkEvent { event_type : NodeEventType; ev_node : Node }.

(** ** ScalePlan (dlrover.python.master.scaler.base_scaler) *)

Record ScalePlan := mkPlan {
  node_group_resources : list (NodeType * Z);  (* type -> count *)
  launch_nodes : list Node;
  remove_nodes : list Node;
  ps_addrs : list string
}.

Definition empty_plan : ScalePlan := mkPlan [] [] [] [].

Definition plan_empty (p : ScalePlan) : bool :=
  match p.(node_group_resources), p.(launch_nodes), p.(remove_nodes),
        p.(ps_addrs) with
  | [], [], [], [] => true
  | _, _, _, _ => false
  end.

(** ** Cluster pods as returned by [list_namespaced_pod] *)

Record PodLabels := mkLabels {
  job_key : string;
  replica_type_key : NodeType;
  rank_index_key : Z;
  replica_index_key : Z
}.

Record Pod := mkPod {
  pod_phase : NodeStatus;
  deletion_timestamp : option Z
}.

(** ** Collaborators of the manager that are fixed for a job *)

Record Env := mkEnv {
  job_name : string;
  all_reduce : bool;       (* distribution_strategy == ALLREDUCE *)
  relaunch_always : bool;  (* _dlrover_context.relaunch_always *)
  max_memory : Z;          (* NodeResourceLimit.MAX_MEMORY *)
  list_namespaced_pod : PodLabels -> list Pod;  (* k8s client *)
  oom_memory_policy : Z -> Z;   (* optimizer's new memory after an OOM *)
  worker_eval_time : Z -> Z;    (* perf_monitor.get_worker_eval_time *)
  ps_addr_list : list string    (* ps_manager.get_ps_addrs() *)
}.

(** Calls into external collaborators, in the order they are made. *)
Inductive Effect :=
| QueryPods (l : PodLabels)             (* k8s list_namespaced_pod *)
| Scale (p : ScalePlan)                 (* self._scaler.scale(plan) *)
| AdjustOOMResource (k : NodeType * Z)  (* job_optimizer.adjust_oom_resource *)
| ReportNotRelaunch (k : NodeType * Z) (msg : string)
                                        (* _report_event(ACTION_NOT_RELAUNCH) *)
| ReportEarlyStop (msg : string)        (* _report_event(ACTION_EARLY_STOP) *)
| ReportNoHeartbeat (k : NodeType * Z)  (* report_node_no_heartbeat *)
| NodeCallback (to_status : NodeStatus)   (* _process_node_events *)
| ProcessExit                           (* os._exit(0) *)
| ReportStatusChange (k : NodeType * Z) (old new : NodeStatus)
                            (* _event_reporter.report_node_status_change *)
| ReportNodeRelaunch (k k' : NodeType * Z).
                            (* _event_reporter.report_node_relaunch *)

(** ** Manager state *)

Record Manager := mkManager {
  job_nodes : list Node;           (* the job context's NodeStore *)
  enable_relaunch_node : bool;
  stopped : bool;
  job_stage : JobStage;            (* job context's job stage *)
  wait_pending_relaunch : bool;
  pending_relaunch_count : Z;
  remove_exited_node : bool
}.

(** [job_context.job_node(type, id)] *)
Definition job_node (m : Manager) (t : NodeType) (i : Z) : option Node :=
  find (same_key t i) m.(job_nodes).

(** [job_context.update_job_node(node)]: the dict entry at the node's key
    is (re)assigned. *)
Definition store_put (n : Node) (l : list Node) : list Node :=
  if existsb (same_key n.(n_type) n.(n_id)) l
  then map (fun x => if same_key n.(n_type) n.(n_id) x then n else x) l
  else (l ++ [n])%list.

Definition with_nodes (l : list Node) (m : Manager) : Manager :=
  mkManager l m.(enable_relaunch_node) m.(stopped) m.(job_stage)
    m.(wait_pending_relaunch) m.(pending_relaunch_count)
    m.(remove_exited_node).

Definition update_job_node (n : Node) (m : Manager) : Manager :=
  with_nodes (store_put n m.(job_nodes)) m.

(** ** State-and-trace monad *)

Definition M (A : Type) : Type := Manager -> A * Manager * list Effect.

Definition ret {A} (a : A) : M A := fun m => (a, m, []).

Definition bind {A B} (c : M A) (k : A -> M B) : M B :=
  fun m => let '(a, m1, t1) := c m in
           let '(b, m2, t2) := k a m1 in (b, m2, (t1 ++ t2)%list).

Notation "'let*' x ':=' c 'in' k" := (bind c (fun x => k))
  (at level 200, x name, c at level 100, k at level 200).
Notation "c ;; k" := (bind c (fun _ => k)) (at level 100, right associativity).

Definition get : M Manager := fun m => (m, m, []).
Definition modify (f : Manager -> Manager) : M unit := fun m => (tt, f m, []).
Definition emit (e : Effect) : M unit := fun m => (tt, m, [e]).

Definition run {A} (c : M A) (m : Manager) : A * Manager * list Effect := c m.

(** A computation that leaves the job stage as it is. *)
Definition keeps_stage {A} (c : M A) : Prop :=
  forall m, (snd (fst (c m))).(job_stage) = m.(job_stage).

(** A computation that never queries the cluster for pods. *)
Definition no_pod_query {A} (c : M A) : Prop :=
  forall m l, ~ In (QueryPods l) (snd (c m)).

(** Decimal rendering of an integer, for the f-strings of messages. *)
Fixpoint digits (fuel : nat) (n : Z) (acc : string) : string :=
  match fuel with
  | O => acc
  | S f =>
      let acc' := String (ascii_of_nat (48 + Z.to_nat (n mod 10))%nat) acc in
      if Z.ltb n 10 then acc' else digits f (n / 10) acc'
  end.

Definition Z_to_string (z : Z) : string :=
  if Z.ltb z 0 then "-" ++ digits 64 (- z) "" else digits 64 z "".

(** ** Node state flow (dlrover.python.master.node.status_flow) *)

Record NodeStateFlow := mkFlow {
  from_status : NodeStatus;
  to_status : NodeStatus;
  fl_should_relaunch : bool
}.

(** Modelled from the spec: [get_node_state_flow] (status_flow.py, not
    under src/), after spec 4.1: [initial -> pending -> running ->
    {succeeded | failed | deleted}]; [running -> deleted] is
    relaunch-eligible; nothing leaves [succeeded]; a [DELETED] event whose
    node carries status [failed] (the events synthesised for
    no_heartbeat and diag_fail) moves the node to [failed],
    relaunch-eligible; an ["exit"] event is no node transition. *)
Definition get_node_state_flow (old : NodeStatus) (ev : NodeEventType)
    (new : NodeStatus) : option NodeStateFlow :=
  match old, ev, new with
  | Succeeded, _, _ => None
  | Initial, (EvAdded | EvModified), Pending =>
      Some (mkFlow Initial Pending false)
  | Pending, (EvAdded | EvModified), Running =>
      Some (mkFlow Pending Running false)
  | Running, EvModified, Succeeded => Some (mkFlow Running Succeeded false)
  | Running, EvModified, Failed => Some (mkFlow Running Failed true)
  | Running, EvDeleted, Failed => Some (mkFlow Running Failed true)
  | Running, EvDeleted, _ => Some (mkFlow Running Deleted true)
  | _, _, _ => None
  end.

(** ** Relaunch policy *)

(** Modelled from the spec: [JobResourceOptimizer.adjust_oom_resource]
    (not under src/), "call optimizer to raise memory": the call is
    recorded and the node's configured memory becomes the optimizer's
    choice [oom_memory_policy]. *)
Definition adjust_oom_resource (env : Env) (node : Node) : M Node :=
  emit (AdjustOOMResource (node_key node)) ;;
  ret (set_config_memory (env.(oom_memory_policy) node.(config_memory)) node).

(** The [if should_relaunch:] re-check of [_should_relaunch]; returns the
    verdict, the message and the node as mutated. *)
Definition recheck_relaunch (env : Env) (m : Manager) (node : Node)
    : M (bool * string * Node) :=
  if JobStage_beq m.(job_stage) JobStopping then
    ret (false, "Disable relaunch when job is stopping", node)
  else if NodeExitReason_beq node.(exit_reason) FatalError
          && negb env.(relaunch_always) then
    ret (false, "Disable relaunch due to fatal error", node)
  else if NodeExitReason_beq node.(exit_reason) Relaunched then
    ret (false, "Disable relaunch due to already relaunched", node)
  else if NodeExitReason_beq node.(exit_reason) OOM then
    let mem := node.(config_memory) in
    if env.(all_reduce) then ret (false, "", node)
    else if mem >=? env.(max_memory) then
      ret (false, Z_to_string mem ++ " beyond " ++ Z_to_string env.(max_memory),
           node)
    else if node.(relaunch_count) >=? node.(max_relaunch_count) then
      ret (false, "Relaunched " ++ Z_to_string node.(relaunch_count)
                  ++ " beyond " ++ Z_to_string node.(max_relaunch_count), node)
    else
      let node := set_is_recovered_oom true node in
      let* node := adjust_oom_resource env node in
      ret (true, "", node)
  else if negb (NodeExitReason_beq node.(exit_reason) Killed) then
    if node.(relaunch_count) >=? node.(max_relaunch_count) then
      ret (false, Z_to_string node.(relaunch_count) ++ " exhausted "
                  ++ Z_to_string node.(max_relaunch_count), node)
    else ret (true, "", node)
  else ret (true, "", node).

(** [DistributedJobManager._should_relaunch]; the returned node is the
    mutated [node] object, which the caller writes back to the store it
    aliases. *)
Definition _should_relaunch (env : Env) (node : Node) (flow : NodeStateFlow)
    : M (bool * Node) :=
  let* m := get in
  let* r :=
    if flow.(fl_should_relaunch) && m.(enable_relaunch_node)
       && node.(relaunchable)
    then recheck_relaunch env m node
    else ret (false, "", node) in
  let '(should_relaunch, msg, node) := r in
  let node := if should_relaunch
              then set_relaunch_count (node.(relaunch_count) + 1) node
              else node in
  (if negb should_relaunch && Nat.ltb 0 (String.length msg)
   then emit (ReportNotRelaunch (node_key node) msg)
   else ret tt) ;;
  ret (should_relaunch, node).

(** ** Sample job used by the concrete checks *)

Definition sample_env : Env :=
  {| job_name := "demo"; all_reduce := false; relaunch_always := false;
     max_memory := 65536; list_namespaced_pod := fun _ => [];
     oom_memory_policy := fun mem => mem * 2;
     worker_eval_time := fun _ => 0; ps_addr_list := [] |}.

Definition sample_worker (i : Z) (s : NodeStatus) : Node :=
  {| n_type := Worker; n_id := i; rank_index := i;
     name := "demo-edljob-worker-" ++ Z_to_string i; status := s;
     exit_reason := NoExit; relaunch_count := 0; max_relaunch_count := 3;
     relaunchable := true; is_released := false; critical := false;
     is_recovered_oom := false; config_memory := 8192;
     start_time := Some 1000; create_time := Some 990;
     heartbeat_time := 0; host_name := "host"; host_ip := "10.0.0.1";
     restart_training := false; reported_status := EvNoReport;
     service_addr := ""; eval_time := 0 |}.

Definition sample_manager (l : list Node) : Manager :=
  {| job_nodes := l; enable_relaunch_node := true; stopped := false;
     job_stage := JobRunning; wait_pending_relaunch := false;
     pending_relaunch_count := 0; remove_exited_node := false |}.

(** PS node [i] of the sample job. *)
Definition sample_ps (i : Z) (s : NodeStatus) : Node :=
  {| n_type := PS; n_id := i; rank_index := i;
     name := "demo-edljob-ps-" ++ Z_to_string i; status := s;
     exit_reason := NoExit; relaunch_count := 0; max_relaunch_count := 3;
     relaunchable := true; is_released := false; critical := false;
     is_recovered_oom := false; config_memory := 8192;
     start_time := Some 1000; create_time := Some 990;
     heartbeat_time := 0; host_name := "host"; host_ip := "10.0.0.2";
     restart_training := false; reported_status := EvNoReport;
     service_addr := ""; eval_time := 0 |}.

(** Workers of the sample job with a heartbeat after start (2000 s) and
    one whose heartbeat precedes its start time (995 s). *)
Definition beating_worker : Node :=
  set_heartbeat_time 2000 (sample_worker 1 Running).
Definition stale_worker : Node :=
  set_heartbeat_time 995 (sample_worker 2 Running).

(** The sample job where the cluster answers every pod query with one
    live running pod. *)
Definition live_pod_env : Env :=
  {| job_name := "demo"; all_reduce := false; relaunch_always := false;
     max_memory := 65536;
     list_namespaced_pod := fun _ => [mkPod Running None];
     oom_memory_policy := fun mem => mem * 2;
     worker_eval_time := fun _ => 0; ps_addr_list := [] |}.

(** A [MODIFIED] event for worker 1 reporting it running under a new pod
    name and host ip. *)
Definition renamed_running_event : NodeEvent :=
  mkEvent EvModified
    (set_host_ip "10.0.0.9"
       (set_name "demo-edljob-worker-1-new" (sample_worker 1 Running))).

(** ** Manager field updates *)

Definition set_enable_relaunch_node (b : bool) (m : Manager) : Manager :=
  mkManager m.(job_nodes) b m.(stopped) m.(job_stage)
    m.(wait_pending_relaunch) m.(pending_relaunch_count) m.(remove_exited_node).

Definition set_stopped (b : bool) (m : Manager) : Manager :=
  mkManager m.(job_nodes) m.(enable_relaunch_node) b m.(job_stage)
    m.(wait_pending_relaunch) m.(pending_relaunch_count) m.(remove_exited_node).

(** [job_context.update_job_stage(stage)] *)
Definition update_job_stage (st : JobStage) (m : Manager) : Manager :=
  mkManager m.(job_nodes) m.(enable_relaunch_node) m.(stopped) st
    m.(wait_pending_relaunch) m.(pending_relaunch_count) m.(remove_exited_node).

Definition incr_pending_relaunch_count (m : Manager) : Manager :=
  mkManager m.(job_nodes) m.(enable_relaunch_node) m.(stopped) m.(job_stage)
    m.(wait_pending_relaunch) (m.(pending_relaunch_count) + 1)
    m.(remove_exited_node).

(** ** Event pipeline *)

(** Python truthiness of an optional value. *)
Definition isSome {A} (o : option A) : bool :=
  match o with Some _ => true | None => false end.

(** [is_positive_exit] *)
Definition is_positive_exit (r : NodeExitReason) : bool :=
  match r with DiagFail | NoHeartbeat => true | _ => false end.

(** [_get_pod_unique_labels] *)
Definition _get_pod_unique_labels (env : Env) (node : Node) : PodLabels :=
  mkLabels env.(job_name) node.(n_type) node.(rank_index) node.(n_id).

(** [pods and len(pods.items) > 0 and any(pod.status.phase == RUNNING and
    not pod.metadata.deletion_timestamp for pod in pods.items)] *)
Definition running_pod_exists (pods : list Pod) : bool :=
  existsb (fun p => NodeStatus_beq p.(pod_phase) Running
                    && negb (isSome p.(deletion_timestamp))) pods.

(** Modelled from the spec: [Node.update_info] (node.py, not under
    src/).  The spec (section 6) has the watcher's nodes carry the observed
    name, host_ip, host_name, create_time and start_time that refresh the
    store; [_process_event] passes these and restart_training,
    relaunch_count and is_released of the event's node.  A time that is
    None and an empty host name or ip are not written (nothing was
    observed), and [relaunch_count] keeps the larger of the stored and the
    reported value, as spec 8 (invariant 2) has it never decrease. *)
Definition update_info (ev : Node) (cur : Node) : Node :=
  let cur := set_name ev.(name) cur in
  let cur := if isSome ev.(start_time) then set_start_time ev.(start_time) cur
             else cur in
  let cur := if isSome ev.(create_time)
             then set_create_time ev.(create_time) cur else cur in
  let cur := if Nat.ltb 0 (String.length ev.(host_name))
             then set_host_name ev.(host_name) cur else cur in
  let cur := if Nat.ltb 0 (String.length ev.(host_ip))
             then set_host_ip ev.(host_ip) cur else cur in
  let cur := set_restart_training ev.(restart_training) cur in
  let cur := set_relaunch_count
               (Z.max cur.(relaunch_count) ev.(relaunch_count)) cur in
  set_is_released ev.(is_released) cur.

(** [close_job]: a plan with zero worker and ps counts, then [os._exit(0)]. *)
Definition close_job : M unit :=
  emit (Scale (mkPlan [(Worker, 0); (PS, 0)] [] [] [])) ;;
  emit ProcessExit.

(** [_process_node_events]: which callback hook fires. *)
Definition _process_node_events (flow : NodeStateFlow) : M unit :=
  match flow.(to_status) with
  | Running | Succeeded | Failed => emit (NodeCallback flow.(to_status))
  | Deleted =>
      if negb (NodeStatus_beq flow.(from_status) Failed)
         && negb (NodeStatus_beq flow.(from_status) Succeeded)
      then emit (NodeCallback Deleted) else ret tt
  | _ => ret tt
  end.

Definition max_id_of_type (t : NodeType) (l : list Node) : Z :=
  fold_left (fun acc n => if NodeType_beq n.(n_type) t
                          then Z.max acc n.(n_id) else acc) l (-1).

(** Modelled from the spec: [relaunch_node(node, remove_exited)] of the
    per-type node managers (worker.py, ps.py, not under src/), after spec
    4.4: a fresh id equal to the largest id of the type plus one, a new
    [initial] node with the copied configuration and
    [max_relaunch_count], inserted into the store, and a plan launching
    it, whose [remove_nodes] holds the old node when [remove_exited]. *)
Definition relaunch_node (node : Node) (remove_exited : bool) : M ScalePlan :=
  let* m := get in
  let new_id := max_id_of_type node.(n_type) m.(job_nodes) + 1 in
  let new_node :=
    set_n_id new_id (set_status Initial (set_exit_reason NoExit
      (set_relaunchable true (set_is_released false
        (set_heartbeat_time 0 (set_start_time None
          (set_create_time None node))))))) in
  modify (update_job_node new_node) ;;
  ret (mkPlan [] [new_node] (if remove_exited then [node] else []) []).

(** [_relaunch_node].  The old node object in [remove_nodes] (put there by
    [relaunch_node] and appended again here when [_remove_exited_node]) is
    the one whose [relaunchable] is cleared before [scale] is called, so
    every entry with its key is seen with the flag cleared. *)
Definition _relaunch_node (env : Env) (node : Node) : M unit :=
  let* m := get in
  let* plan := relaunch_node node m.(remove_exited_node) in
  (match plan.(launch_nodes) with
   | new_node :: _ => emit (ReportNodeRelaunch (node_key node) (node_key new_node))
   | [] => ret tt
   end) ;;
  let removed := if m.(remove_exited_node)
                 then (plan.(remove_nodes) ++ [node])%list
                 else plan.(remove_nodes) in
  let node := set_relaunchable false node in
  let plan := mkPlan plan.(node_group_resources) plan.(launch_nodes)
                (map (fun x => if same_key node.(n_type) node.(n_id) x
                               then node else x) removed)
                (plan.(ps_addrs) ++ env.(ps_addr_list))%list in
  modify (update_job_node node) ;;
  emit (Scale plan).

(** The first block of [_process_event]: a [DELETED] event (or one whose
    node is [deleted]) that is not a positive exit is dropped when the
    cluster already runs a live pod with the node's unique labels. *)
Definition skip_deleted_event (env : Env) (event : NodeEvent) : M bool :=
  let enode := event.(ev_node) in
  if (NodeEventType_beq event.(event_type) EvDeleted
      || NodeStatus_beq enode.(status) Deleted)
     && negb (is_positive_exit enode.(exit_reason))
  then
    let labels := _get_pod_unique_labels env enode in
    emit (QueryPods labels) ;;
    ret (running_pod_exists (env.(list_namespaced_pod) labels))
  else ret false.

(** The rest of [_process_event].  Python's [cur_node] is the object held
    by the store, so every mutation of it is a write to the store. *)
Definition process_event_update (env : Env) (event : NodeEvent) : M unit :=
  let enode := event.(ev_node) in
  let* m := get in
  match job_node m enode.(n_type) enode.(n_id) with
  | None => ret tt
  | Some cur =>
    let cur := update_info enode cur in
    modify (update_job_node cur) ;;
    if NodeEventType_beq event.(event_type) EvExit then close_job else
    let new_status := enode.(status) in
    let old_status := cur.(status) in
    match get_node_state_flow old_status event.(event_type) new_status with
    | None => ret tt
    | Some flow =>
      if NodeStatus_beq flow.(from_status) Succeeded then ret tt else
      let cur := set_exit_reason enode.(exit_reason)
                   (set_status new_status cur) in
      modify (update_job_node cur) ;;
      _process_node_events flow ;;
      let* r := _should_relaunch env cur flow in
      let '(should_relaunch, cur) := r in
      modify (update_job_node cur) ;;
      let* m := get in
      (if should_relaunch && m.(wait_pending_relaunch)
       then modify incr_pending_relaunch_count else ret tt) ;;
      emit (ReportStatusChange (node_key cur) old_status flow.(to_status)) ;;
      if should_relaunch then _relaunch_node env cur else ret tt
    end
  end.

(** [_process_event] *)
Definition _process_event (env : Env) (event : NodeEvent) : M unit :=
  let* skip := skip_deleted_event env event in
  if skip then ret tt else process_event_update env event.

(** Events processed one after another, as by the watcher loop. *)
Fixpoint process_events (env : Env) (events : list NodeEvent) : M unit :=
  match events with
  | [] => ret tt
  | e :: es => _process_event env e ;; process_events env es
  end.

(** ** Relaunch budget over event histories *)

(** The budget invariant of a node: [relaunch_count <= max_relaunch_count
    <= _MAX_POD_RELAUNCH_COUNT]. *)
Definition within_budget (n : Node) : Prop :=
  n.(relaunch_count) <= n.(max_relaunch_count) <= _MAX_POD_RELAUNCH_COUNT.

Definition store_within_budget (m : Manager) : Prop :=
  forall n, In n m.(job_nodes) -> within_budget n.

(** Every node stored in [m] is still stored in [m'], with a
    [relaunch_count] at least as large. *)
Definition counts_grow (m m' : Manager) : Prop :=
  forall t i n, job_node m t i = Some n ->
    exists n', job_node m' t i = Some n'
               /\ n.(relaunch_count) <= n'.(relaunch_count).

(** Each event of the history, when it is processed, reports a
    [relaunch_count] no larger than the stored node's [max_relaunch_count]
    ([update_info] keeps the larger of the two counts). *)
Fixpoint events_within_budget (env : Env) (events : list NodeEvent)
    (m : Manager) : bool :=
  match events with
  | [] => true
  | e :: es =>
      match job_node m e.(ev_node).(n_type) e.(ev_node).(n_id) with
      | Some n => Z.leb e.(ev_node).(relaunch_count) n.(max_relaunch_count)
      | None => true
      end
      && events_within_budget env es (snd (fst (run (_process_event env e) m)))
  end.

(** One event's step from [m] to [m']: counts grow, and the budget is
    kept when the event is not a [killed] exit and reports a count within
    the stored node's maximum. *)
Definition budget_step (e : NodeEvent) (m m' : Manager) : Prop :=
  counts_grow m m'
  /\ (store_within_budget m ->
      e.(ev_node).(exit_reason) <> Killed ->
      (forall n, job_node m e.(ev_node).(n_type) e.(ev_node).(n_id) = Some n ->
                 e.(ev_node).(relaunch_count) <= n.(max_relaunch_count)) ->
      store_within_budget m').

(** ** Heartbeat monitor *)

(** The per-node test and synthesised event of [_get_dead_node_event]. *)
Definition dead_node_event (now window : Z) (node : Node) : option NodeEvent :=
  if Z.ltb 0 node.(heartbeat_time) && Z.ltb window (now - node.(heartbeat_time))
     && isSome node.(start_time) && isSome node.(create_time)
     && NodeStatus_beq node.(status) Running
     && negb (is_succeeded_and_exited node)
  then
    match node.(start_time), node.(create_time) with
    | Some st, Some ct =>
        if Z.leb node.(heartbeat_time) st || Z.leb node.(heartbeat_time) ct
        then None
        else Some (mkEvent EvDeleted
                     (set_exit_reason NoHeartbeat (set_status Failed node)))
    | _, _ => None
    end
  else None.

(** [_get_dead_node_event(window_interval)] at time [now], over the
    store's nodes in iteration order. *)
Definition _get_dead_node_event (now window : Z) (m : Manager)
    : list NodeEvent :=
  flat_map (fun n => match dead_node_event now window n with
                     | Some e => [e] | None => [] end) m.(job_nodes).

(** ** Shutdown and clean-up *)

(** [stop] *)
Definition stop (env : Env) : M unit :=
  let* m := get in
  if m.(stopped) then ret tt else
  modify (set_enable_relaunch_node false) ;;
  modify (fun m => with_nodes
    (map (fun n => set_relaunchable false (set_is_released true
                     (set_critical false n))) m.(job_nodes)) m) ;;
  modify (fun m => with_nodes
    (map (fun n => if NodeType_beq n.(n_type) Worker
                   then set_eval_time (env.(worker_eval_time) n.(n_id)) n
                   else n) m.(job_nodes)) m) ;;
  modify (set_stopped true).

Definition releasable_exited (n : Node) : bool :=
  negb n.(is_released) && exited n.

(** [clear_exited_nodes] *)
Definition clear_exited_nodes : M unit :=
  let* m := get in
  if negb m.(remove_exited_node) then ret tt else
  let removed := map (set_is_released true)
                   (filter releasable_exited m.(job_nodes)) in
  modify (with_nodes (map (fun n => if releasable_exited n
                                    then set_is_released true n else n)
                          m.(job_nodes))) ;;
  match removed with
  | [] => ret tt
  | _ => emit (Scale (mkPlan [] [] removed []))
  end.

(** [clear_all_nodes] *)
Definition clear_all_nodes : M unit :=
  let* m := get in
  let removed := map (set_is_released true)
                   (filter (fun n => negb n.(is_released)) m.(job_nodes)) in
  modify (with_nodes (map (set_is_released true) m.(job_nodes))) ;;
  emit (Scale (mkPlan [] [] removed [])).

(** ** Reports from agents *)

(** [update_node_service_addr] *)
Definition update_node_service_addr (t : NodeType) (i : Z) (addr : string)
    : M unit :=
  let* m := get in
  match job_node m t i with
  | None => ret tt
  | Some node =>
      modify (update_job_node (set_is_released false
        (set_status Running (set_service_addr addr node))))
  end.

(** Modelled from the spec: [Node.update_reported_status] (node.py, not
    under src/): [reported_status] is "the last status pushed by the
    training agent itself", so the reported event type is stored. *)
Definition update_reported_status (ev : NodeEventType) (n : Node) : Node :=
  set_reported_status ev n.

(** [process_reported_node_event] *)
Definition process_reported_node_event (event : NodeEvent) : M unit :=
  let ev := event.(event_type) in
  let node := event.(ev_node) in
  let* m := get in
  (match job_node m node.(n_type) node.(n_id) with
   | Some target => modify (update_job_node (update_reported_status ev target))
   | None => ret tt
   end) ;;
  if NodeEventType_beq ev EvSucceededExited
  then modify (update_job_stage JobStopping) else ret tt.

(** ** Early stop *)

(** The answers of the node managers' detectors that [should_early_stop]
    consults (worker.py and ps.py, not under src/). *)
Record Detectors := mkDetectors {
  all_initial_workers_node_check_failed : bool;
  pending_timeout_oom_recovered_ps : list Node;
  ps_pending_node_caused_hang : option Node;
  worker_pending_node_caused_hang : option Node;
  training_hang_by_insufficient_worker : bool
}.

Definition msg_node_check : string :=
  "Stop the training early because all worker nodes has failed the node check in rendezvous.".
Definition msg_ps_oom : string :=
  "Stop the training early because the nodes recovered from OOM are pending too long and have timed out.".
Definition msg_pending : string :=
  "Stop the training early because 1) there is node pending 2) alive nodes number consistently less than the min training nodes required 3) pending time last exceed limit.".
Definition msg_insufficient : string :=
  "Stop the training early because there isn't enough node to keep training.".

(** [should_early_stop]; the result is (stop, exit reason, message), with
    [ExitNone] for the empty reason. *)
Definition should_early_stop (env : Env) (d : Detectors)
    : M (bool * JobExitReason * string) :=
  if env.(all_reduce) && d.(all_initial_workers_node_check_failed) then
    emit (ReportEarlyStop "All node check failed") ;;
    ret (true, NodeCheckFailed, msg_node_check)
  else match d.(pending_timeout_oom_recovered_ps) with
  | _ :: _ =>
    emit (ReportEarlyStop "PS OOM") ;;
    ret (true, PendingTimeout, msg_ps_oom)
  | [] =>
    let first_pending_node :=
      match d.(ps_pending_node_caused_hang) with
      | Some n => Some n
      | None => d.(worker_pending_node_caused_hang)
      end in
    match first_pending_node with
    | Some _ =>
      emit (ReportEarlyStop "Pending nodes") ;;
      ret (true, PendingTimeout, msg_pending)
    | None =>
      if env.(all_reduce) && d.(training_hang_by_insufficient_worker) then
        emit (ReportEarlyStop "Not enough nodes") ;;
        ret (true, UncompletedTimeout, msg_insufficient)
      else ret (false, ExitNone, "")
    end
  end.
Example Z_to_string_1024 : Z_to_string 1024 = "1024".
Proof. reflexivity. Qed.

Example sample_failed_flow :
  get_node_state_flow Running EvModified Failed = Some (mkFlow Running Failed true).
Proof. reflexivity. Qed.

(** An all-reduce variant of the sample job. *)
Definition allreduce_env : Env :=
  {| job_name := "demo"; all_reduce := true; relaunch_always := false;
     max_memory := 65536; list_namespaced_pod := fun _ => [];
     oom_memory_policy := fun mem => mem * 2;
     worker_eval_time := fun _ => 0; ps_addr_list := [] |}.

(** Detector answers where only the insufficient-worker check fires. *)
Definition only_insufficient : Detectors :=
  mkDetectors false [] None None true.

(** ** Further manager operations *)

(** [_process_event_safely]: [_process_event] inside a [try] whose
    [except Exception] only logs.  The modelled [_process_event] raises no
    exception, so the wrapper runs it unchanged. *)
Definition _process_event_safely (env : Env) (event : NodeEvent) : M unit :=
  _process_event env event.

(** The [NodeAction] of a diagnosis: the node it designates. *)
Record NodeAction := mkNodeAction {
  action_node_type : NodeType;
  action_node_id : Z
}.

(** [_process_node_action]: the designated node, when stored, is failed
    with [DIAG_FAIL] through a synthesised [DELETED] event built on a copy
    of it. *)
Definition _process_node_action (env : Env) (action : NodeAction) : M unit :=
  let* m := get in
  match job_node m action.(action_node_type) action.(action_node_id) with
  | None => ret tt
  | Some target_node =>
      let event_node := set_exit_reason DiagFail (set_status Failed target_node) in
      _process_event_safely env (mkEvent EvDeleted event_node)
  end.

(** [collect_node_heart_beat], its update of the store.  The diagnosis
    action it returns afterwards is read from [job_context.next_action]
    (not under src/) and is not part of this model. *)
Definition collect_node_heart_beat (node_type : NodeType) (node_id : Z)
    (timestamp : Z) : M unit :=
  let* m := get in
  match job_node m node_type node_id with
  | None => ret tt
  | Some node => modify (update_job_node (set_heartbeat_time timestamp node))
  end.

(** The statuses [all_critical_node_completed] counts as alive. *)
Definition alive_status (s : NodeStatus) : bool :=
  match s with Initial | Pending | Running => true | _ => false end.

(** [all_critical_node_completed] *)
Definition all_critical_node_completed (m : Manager) : bool :=
  let alive_critical_nodes :=
    map name (filter (fun n => n.(critical) && alive_status n.(status))
                m.(job_nodes)) in
  match alive_critical_nodes with [] => true | _ => false end.

Definition is_training_node (n : Node) : bool :=
  NodeType_beq n.(n_type) Worker || NodeType_beq n.(n_type) PS.

(** The test of the loop of [remove_training_nodes]. *)
Definition removable_training_node (n : Node) : bool :=
  (NodeStatus_beq n.(status) Running || NodeStatus_beq n.(status) Pending)
  && negb n.(is_released).

(** The mutations of the loop of [remove_training_nodes]. *)
Definition retire_training_node (n : Node) : Node :=
  set_status Deleted (set_is_released true
    (set_relaunchable false (set_critical false n))).

(** Whether [job_nodes] has an entry for a node type.  Modelled from the
    spec: the job context's per-type dict (job_context.py, not under src/)
    is built from the job's node groups (spec 3: the NodeStore is populated
    from the desired counts per type) and nodes are never removed, so a
    type is taken to have an entry exactly when a node of the type is
    stored; a worker-only all-reduce job has no PS entry. *)
Definition has_type_entry (t : NodeType) (m : Manager) : bool :=
  existsb (fun n => NodeType_beq n.(n_type) t) m.(job_nodes).

(** [remove_training_nodes]: workers then PS nodes that are running or
    pending and not yet released are retired, written back and listed in
    the plan; the plan is passed to the scaler even when empty.
    [job_nodes[NodeType.WORKER]] and [job_nodes[NodeType.PS]] raise
    KeyError (the result [None]) before any node is touched when the type
    has no entry.  Its first statement,
    [self._job_autoscaler.stop_auto_scaling()], acts on the auto-scaler,
    which is not among the collaborators recorded here. *)
Definition remove_training_nodes : M (option unit) :=
  let* m := get in
  if negb (has_type_entry Worker m) || negb (has_type_entry PS m)
  then ret None else
  let training_nodes :=
    (filter (fun n => NodeType_beq n.(n_type) Worker) m.(job_nodes)
     ++ filter (fun n => NodeType_beq n.(n_type) PS) m.(job_nodes))%list in
  let removed :=
    map retire_training_node (filter removable_training_node training_nodes) in
  modify (with_nodes (map (fun n => if is_training_node n
                                       && removable_training_node n
                                    then retire_training_node n else n)
                          m.(job_nodes))) ;;
  emit (Scale (mkPlan [] [] removed [])) ;;
  ret (Some tt).

(** The heartbeat entry of [_get_nodes_time_info]: [0] when no heartbeat
    was received, otherwise the heartbeat as a datetime. *)
Inductive HeartbeatInfo := HbZero | HbAt (ts : Z).

Record TimeInfo := mkTimeInfo {
  ti_name : string;
  ti_type : NodeType;
  ti_create : option Z;
  ti_start : option Z;
  ti_heartbeat : HeartbeatInfo
}.

Definition time_info (node : Node) : TimeInfo :=
  mkTimeInfo node.(name) node.(n_type) node.(create_time) node.(start_time)
    (if Z.eqb node.(heartbeat_time) 0 then HbZero
     else HbAt node.(heartbeat_time)).

(** [result[k] = v] on a Python dict with integer keys, kept in insertion
    order. *)
Fixpoint dict_set {V} (k : Z) (v : V) (d : list (Z * V)) : list (Z * V) :=
  match d with
  | [] => [(k, v)]
  | (k', v') :: d' =>
      if Z.eqb k k' then (k, v) :: d' else (k', v') :: dict_set k v d'
  end.

(** [_get_nodes_time_info]: one entry per node, keyed by [node.id]. *)
Definition _get_nodes_time_info (m : Manager) : list (Z * TimeInfo) :=
  fold_left (fun result node => dict_set node.(n_id) (time_info node) result)
    m.(job_nodes) [].

(** A computation never drops a node key from the store. *)
Definition keeps_nodes {A} (c : M A) : Prop :=
  forall m t i, existsb (same_key t i) m.(job_nodes) = true ->
    existsb (same_key t i) (snd (fst (c m))).(job_nodes) = true.

(** ** Relaunch policy *)

(** Case analysis on every boolean test left in the goal. *)
Ltac split_ifs :=
  repeat match goal with |- context [if ?b then _ else _] => destruct b end.

Ltac run_monad :=
  unfold _should_relaunch, recheck_relaunch, adjust_oom_resource,
    bind, get, ret, emit in *; simpl in *.

(** C1: a relaunch-eligible OOM exit of a relaunchable node, with relaunch
    enabled, the job not stopping, a non-all-reduce job, configured memory
    below MAX_MEMORY and relaunch budget left, is relaunched:
    [_should_relaunch] returns true, sets [is_recovered_oom], calls the
    optimizer's [adjust_oom_resource] and raises [relaunch_count] by
    exactly one. *)
Theorem should_relaunch_oom_recovers :
  forall env m node flow,
    flow.(fl_should_relaunch) = true ->
    m.(enable_relaunch_node) = true ->
    node.(relaunchable) = true ->
    m.(job_stage) <> JobStopping ->
    node.(exit_reason) = OOM ->
    env.(all_reduce) = false ->
    node.(config_memory) < env.(max_memory) ->
    node.(relaunch_count) < node.(max_relaunch_count) ->
    exists node',
      run (_should_relaunch env node flow) m
        = ((true, node'), m, [AdjustOOMResource (node_key node)])
      /\ node'.(is_recovered_oom) = true
      /\ node'.(relaunch_count) = node.(relaunch_count) + 1
      /\ node'.(config_memory) = env.(oom_memory_policy) node.(config_memory).
Proof.
  intros env m node flow Hfl Hen Hrl Hst Hex Har Hmem Hrc.
  assert (Hst' : JobStage_beq (job_stage m) JobStopping = false)
    by (destruct (job_stage m); simpl; congruence).
  assert (Hmem' : (config_memory node >=? max_memory env) = false)
    by (rewrite Z.geb_leb; apply Z.leb_gt; lia).
  assert (Hrc' : (relaunch_count node >=? max_relaunch_count node) = false)
    by (rewrite Z.geb_leb; apply Z.leb_gt; lia).
  unfold run; run_monad.
  rewrite Hfl, Hen, Hrl, Hst', Hex, Har; simpl.
  rewrite Hmem', Hrc'; simpl.
  eexists; split; [reflexivity | simpl; repeat split; reflexivity].
Qed.

Definition oom_worker : Node := set_exit_reason OOM (sample_worker 4 Failed).

Lemma should_relaunch_oom_recovers_witness :
  fl_should_relaunch (mkFlow Running Failed true) = true
  /\ enable_relaunch_node (sample_manager [oom_worker]) = true
  /\ relaunchable oom_worker = true
  /\ job_stage (sample_manager [oom_worker]) <> JobStopping
  /\ exit_reason oom_worker = OOM
  /\ all_reduce sample_env = false
  /\ config_memory oom_worker < max_memory sample_env
  /\ relaunch_count oom_worker < max_relaunch_count oom_worker
  /\ exists node',
      run (_should_relaunch sample_env oom_worker (mkFlow Running Failed true))
        (sample_manager [oom_worker])
        = ((true, node'), sample_manager [oom_worker],
           [AdjustOOMResource (node_key oom_worker)])
      /\ node'.(is_recovered_oom) = true
      /\ node'.(relaunch_count) = oom_worker.(relaunch_count) + 1
      /\ node'.(config_memory)
         = sample_env.(oom_memory_policy) oom_worker.(config_memory).
Proof.
  repeat split; try reflexivity; try discriminate; try (vm_compute; reflexivity).
  apply should_relaunch_oom_recovers;
    try reflexivity; try discriminate; vm_compute; reflexivity.
Defined.

(** One call of [_should_relaunch]: the manager is untouched,
    [max_relaunch_count] is kept, [relaunch_count] grows by one exactly
    when the verdict is true, and a true verdict at or beyond the budget
    needs the exit reason [killed]. *)
Lemma should_relaunch_step :
  forall env m node flow,
    let '(r, m', _) := run (_should_relaunch env node flow) m in
    m' = m
    /\ (snd r).(max_relaunch_count) = node.(max_relaunch_count)
    /\ (snd r).(relaunch_count)
       = node.(relaunch_count) + (if fst r then 1 else 0)
    /\ (fst r = true -> node.(max_relaunch_count) <= node.(relaunch_count) ->
        node.(exit_reason) = Killed).
Proof.
  intros env m node flow.
  unfold run; run_monad.
  destruct (fl_should_relaunch flow && enable_relaunch_node m
            && relaunchable node); simpl;
    [| repeat split; try lia; discriminate].
  destruct (JobStage_beq (job_stage m) JobStopping); simpl;
    [repeat split; try lia; discriminate |].
  destruct (exit_reason node) eqn:Hex; simpl;
  repeat match goal with
  | |- context [if ?b then _ else _] => destruct b eqn:?; simpl
  end;
  repeat split; try lia; try discriminate; try reflexivity;
  intros _ Hle;
  repeat match goal with
  | H : (_ >=? _) = false |- _ => rewrite Z.geb_leb, Z.leb_gt in H
  end; lia.
Qed.

Definition killed_at_budget : Node :=
  set_exit_reason Killed (set_relaunch_count 3 (sample_worker 4 Failed)).

(** C2 fails as stated: a worker at [relaunch_count = max_relaunch_count = 3]
    whose exit reason is [killed] is relaunched and reaches
    [relaunch_count = 4 > min(3, 5)]. *)
Lemma relaunch_count_exceeds_budget_when_killed :
  let '(r, _, _) := run (_should_relaunch sample_env killed_at_budget
                           (mkFlow Running Failed true))
                        (sample_manager [killed_at_budget]) in
  fst r = true
  /\ killed_at_budget.(relaunch_count) = killed_at_budget.(max_relaunch_count)
  /\ (snd r).(relaunch_count) = 4
  /\ Z.min killed_at_budget.(max_relaunch_count) _MAX_POD_RELAUNCH_COUNT
     < (snd r).(relaunch_count).
Proof. vm_compute; repeat split; reflexivity. Qed.

(** ** Heartbeat monitor *)

Definition dead_conditions (now window : Z) (n : Node) : Prop :=
  n.(status) = Running
  /\ is_succeeded_and_exited n = false
  /\ 0 < n.(heartbeat_time)
  /\ now - n.(heartbeat_time) > window
  /\ (exists st, n.(start_time) = Some st /\ st < n.(heartbeat_time))
  /\ (exists ct, n.(create_time) = Some ct /\ ct < n.(heartbeat_time)).

Definition no_heartbeat_event (n : Node) : NodeEvent :=
  mkEvent EvDeleted (set_exit_reason NoHeartbeat (set_status Failed n)).

Lemma dead_node_event_spec :
  forall now window n e,
    dead_node_event now window n = Some e
    <-> dead_conditions now window n /\ e = no_heartbeat_event n.
Proof.
  intros now window n e; unfold dead_node_event, dead_conditions,
    no_heartbeat_event.
  destruct (start_time n) as [st |] eqn:Hst;
  destruct (create_time n) as [ct |] eqn:Hct; simpl isSome;
  rewrite ?andb_true_r, ?andb_false_r; simpl;
  [| split; [discriminate | intros [[_ [_ [_ [_ [[st' [Hs _]] [ct' [Hc _]]]]]]] _];
     congruence] .. ].
  destruct (Z.ltb 0 (heartbeat_time n)) eqn:E1;
  destruct (Z.ltb window (now - heartbeat_time n)) eqn:E2;
  destruct (NodeStatus_beq (status n) Running) eqn:E3;
  destruct (is_succeeded_and_exited n) eqn:E4;
  destruct (Z.leb (heartbeat_time n) st) eqn:E5;
  destruct (Z.leb (heartbeat_time n) ct) eqn:E6; simpl;
  rewrite ?Z.ltb_lt, ?Z.ltb_ge, ?Z.leb_le, ?Z.leb_gt in *;
  (split;
   [ intros He; try discriminate; injection He as He; subst e;
     repeat split; eauto using internal_NodeStatus_dec_bl; lia
   | intros [[Hs [Hse [Hh [Hw [[st' [Hst' Hlt]] [ct' [Hct' Hlt']]]]]]] He];
     injection Hst' as <-; injection Hct' as <-;
     rewrite ?Hs in E3; simpl in E3; try discriminate;
     try congruence; try lia; subst e; reflexivity ]).
Qed.

(** C3: with the default 600-second window, [_get_dead_node_event] returns
    a synthesised [DELETED] event with exit reason [no_heartbeat] for a
    node exactly when the node is running, has not succeeded-and-exited,
    its heartbeat time is positive, more than 600 s old, and strictly later
    than both its create time and its start time; a node whose heartbeat
    time is at most its create or start time yields no event. *)
Theorem get_dead_node_event_iff :
  forall now m,
    (forall e,
       In e (_get_dead_node_event now 600 m)
       <-> exists n, In n m.(job_nodes) /\ dead_conditions now 600 n
                     /\ e = no_heartbeat_event n)
    /\ (forall e, In e (_get_dead_node_event now 600 m) ->
          e.(event_type) = EvDeleted
          /\ e.(ev_node).(exit_reason) = NoHeartbeat)
    /\ (forall n st ct, n.(start_time) = Some st -> n.(create_time) = Some ct ->
          (n.(heartbeat_time) <= st \/ n.(heartbeat_time) <= ct) ->
          dead_node_event now 600 n = None).
Proof.
  intros now m.
  assert (Hin : forall e,
       In e (_get_dead_node_event now 600 m)
       <-> exists n, In n m.(job_nodes) /\ dead_conditions now 600 n
                     /\ e = no_heartbeat_event n).
  { intros e; unfold _get_dead_node_event; rewrite in_flat_map.
    split.
    - intros [n [Hn He]].
      destruct (dead_node_event now 600 n) as [e' |] eqn:Hd;
        [| contradiction].
      destruct He as [<- | []].
      apply dead_node_event_spec in Hd as [Hc ->]; eauto.
    - intros [n [Hn [Hc ->]]]; exists n; split; [exact Hn |].
      assert (Hd : dead_node_event now 600 n = Some (no_heartbeat_event n))
        by (apply dead_node_event_spec; auto).
      rewrite Hd; left; reflexivity. }
  split; [exact Hin | split].
  - intros e He; apply Hin in He as [n [_ [_ ->]]]; split; reflexivity.
  - intros n st ct Hst Hct Hle.
    destruct (dead_node_event now 600 n) as [e |] eqn:Hd; [| reflexivity].
    apply dead_node_event_spec in Hd as [[_ [_ [_ [_ [[st' [Hs Hlt]]
      [ct' [Hc Hlt']]]]]]] _].
    rewrite Hst in Hs; rewrite Hct in Hc;
      injection Hs as <-; injection Hc as <-; lia.
Qed.

Lemma get_dead_node_event_iff_witness :
  In (no_heartbeat_event beating_worker)
     (_get_dead_node_event 3000 600 (sample_manager [beating_worker; stale_worker]))
  /\ dead_node_event 3000 600 stale_worker = None.
Proof.
  split.
  - apply (proj1 (get_dead_node_event_iff 3000
                    (sample_manager [beating_worker; stale_worker]))).
    exists beating_worker; split; [left; reflexivity | split; [| reflexivity]].
    unfold dead_conditions; vm_compute.
    repeat split; try reflexivity; eauto.
  - apply (proj2 (proj2 (get_dead_node_event_iff 3000 (sample_manager [])))
             stale_worker 1000 990); [reflexivity | reflexivity |].
    left; vm_compute; discriminate.
Defined.

(** ** Deletion filtering *)

Lemma no_pod_query_ret : forall A (a : A), no_pod_query (ret a).
Proof. intros A a m l []. Qed.

Lemma no_pod_query_get : no_pod_query get.
Proof. intros m l []. Qed.

Lemma no_pod_query_modify : forall f, no_pod_query (modify f).
Proof. intros f m l []. Qed.

Lemma no_pod_query_emit :
  forall e, (forall l, e <> QueryPods l) -> no_pod_query (emit e).
Proof. intros e He m l [H | []]; exact (He l H). Qed.

Lemma no_pod_query_bind :
  forall A B (c : M A) (k : A -> M B),
    no_pod_query c -> (forall a, no_pod_query (k a)) ->
    no_pod_query (bind c k).
Proof.
  intros A B c k Hc Hk m l; unfold bind.
  destruct (c m) as [[a m1] t1] eqn:E1.
  destruct (k a m1) as [[b m2] t2] eqn:E2; simpl.
  rewrite in_app_iff; intros [H | H].
  - apply (Hc m l); rewrite E1; exact H.
  - apply (Hk a m1 l); rewrite E2; exact H.
Qed.

Ltac no_pod_query_tac :=
  repeat (cbn zeta beta iota;
    match goal with
    | |- no_pod_query (bind _ _) =>
        apply no_pod_query_bind; [| intros ?]
    | |- no_pod_query (ret _) => apply no_pod_query_ret
    | |- no_pod_query get => apply no_pod_query_get
    | |- no_pod_query (modify _) => apply no_pod_query_modify
    | |- no_pod_query (emit _) =>
        apply no_pod_query_emit; intros ? ?; discriminate
    | |- no_pod_query (match ?x with _ => _ end) => destruct x
    | |- no_pod_query (if ?b then _ else _) => destruct b
    end).

Lemma process_event_update_no_pod_query :
  forall env event, no_pod_query (process_event_update env event).
Proof.
  intros env event.
  unfold process_event_update, close_job, _process_node_events,
    _should_relaunch, recheck_relaunch, adjust_oom_resource,
    _relaunch_node, relaunch_node.
  no_pod_query_tac.
Qed.

Lemma skip_deleted_event_applies :
  forall env event,
    (event.(event_type) = EvDeleted \/ event.(ev_node).(status) = Deleted) ->
    is_positive_exit event.(ev_node).(exit_reason) = false ->
    skip_deleted_event env event
    = (emit (QueryPods (_get_pod_unique_labels env event.(ev_node))) ;;
       ret (running_pod_exists (env.(list_namespaced_pod)
              (_get_pod_unique_labels env event.(ev_node))))).
Proof.
  intros env event Hdel Hpos; unfold skip_deleted_event; rewrite Hpos.
  destruct Hdel as [H | H]; rewrite H; simpl; [reflexivity |].
  rewrite orb_true_r; reflexivity.
Qed.

(** C4: a [DELETED] event (or one whose node is [deleted]) whose exit
    reason is not a positive exit makes [_process_event] first query the
    cluster for pods with the node's unique labels (job name, replica
    type, rank index, replica index), and when one of them runs without a
    deletion timestamp, the event is dropped with the manager state
    unchanged; an event whose exit reason is [diag_fail] or
    [no_heartbeat] skips the query and goes straight to the update. *)
Theorem process_event_deletion_filter :
  forall env event m,
    ((event.(event_type) = EvDeleted \/ event.(ev_node).(status) = Deleted) ->
     event.(ev_node).(exit_reason) <> DiagFail ->
     event.(ev_node).(exit_reason) <> NoHeartbeat ->
     (exists rest,
        snd (run (_process_event env event) m)
        = QueryPods (mkLabels env.(job_name) event.(ev_node).(n_type)
                       event.(ev_node).(rank_index) event.(ev_node).(n_id))
          :: rest)
     /\ (running_pod_exists (env.(list_namespaced_pod)
           (mkLabels env.(job_name) event.(ev_node).(n_type)
              event.(ev_node).(rank_index) event.(ev_node).(n_id))) = true ->
         run (_process_event env event) m
         = (tt, m, [QueryPods (mkLabels env.(job_name) event.(ev_node).(n_type)
                      event.(ev_node).(rank_index) event.(ev_node).(n_id))])))
    /\
    ((event.(ev_node).(exit_reason) = DiagFail
      \/ event.(ev_node).(exit_reason) = NoHeartbeat) ->
     run (_process_event env event) m = run (process_event_update env event) m
     /\ forall l, ~ In (QueryPods l) (snd (run (_process_event env event) m))).
Proof.
  intros env event m; split.
  - intros Hdel Hdiag Hnh.
    assert (Hpos : is_positive_exit event.(ev_node).(exit_reason) = false)
      by (destruct (exit_reason (ev_node event)); simpl; congruence).
    unfold run, _process_event.
    rewrite (skip_deleted_event_applies env event Hdel Hpos).
    unfold _get_pod_unique_labels, bind, emit, ret; simpl.
    destruct (running_pod_exists _) eqn:Hr.
    + split; [eexists; reflexivity | intros _; reflexivity].
    + split; [| discriminate].
      destruct (process_event_update env event m) as [[u m'] t].
      eexists; reflexivity.
  - intros Hpos.
    assert (Hskip : skip_deleted_event env event = ret false).
    { unfold skip_deleted_event.
      destruct Hpos as [H | H]; rewrite H; simpl; rewrite andb_false_r;
        reflexivity. }
    assert (Heq : run (_process_event env event) m
                  = run (process_event_update env event) m).
    { unfold run, _process_event; rewrite Hskip; unfold bind, ret; simpl.
      destruct (process_event_update env event m) as [[u m'] t]; reflexivity. }
    split; [exact Heq |].
    intros l; rewrite Heq; apply process_event_update_no_pod_query.
Qed.

Lemma process_event_deletion_filter_witness :
  let ev := mkEvent EvDeleted (sample_worker 1 Deleted) in
  let ev' := mkEvent EvDeleted
               (set_exit_reason DiagFail (sample_worker 1 Failed)) in
  let m := sample_manager [sample_worker 1 Running] in
  run (_process_event live_pod_env ev) m
  = (tt, m, [QueryPods (mkLabels "demo" Worker 1 1)])
  /\ run (_process_event live_pod_env ev') m
     = run (process_event_update live_pod_env ev') m.
Proof.
  cbv zeta; split.
  - apply (proj2 (proj1 (process_event_deletion_filter live_pod_env
             (mkEvent EvDeleted (sample_worker 1 Deleted))
             (sample_manager [sample_worker 1 Running]))
             (or_introl eq_refl) ltac:(discriminate) ltac:(discriminate))).
    reflexivity.
  - apply (proj2 (process_event_deletion_filter live_pod_env
             (mkEvent EvDeleted
                (set_exit_reason DiagFail (sample_worker 1 Failed)))
             (sample_manager [sample_worker 1 Running])) (or_introl eq_refl)).
Defined.

(** ** Events without a state transition *)

Lemma find_store_put :
  forall n l, find (same_key n.(n_type) n.(n_id)) (store_put n l) = Some n.
Proof.
  intros n l; unfold store_put.
  assert (Hself : same_key n.(n_type) n.(n_id) n = true).
  { unfold same_key; rewrite Z.eqb_refl, andb_true_r.
    destruct (n_type n); reflexivity. }
  destruct (existsb (same_key (n_type n) (n_id n)) l) eqn:He.
  - induction l as [| x l IH]; simpl in *; [discriminate |].
    destruct (same_key (n_type n) (n_id n) x) eqn:Hx; simpl.
    + rewrite Hself; reflexivity.
    + rewrite Hx; apply IH; exact He.
  - induction l as [| x l IH]; simpl in *; [rewrite Hself; reflexivity |].
    apply orb_false_elim in He as [Hx He]; rewrite Hx; apply IH; exact He.
Qed.

Lemma job_node_update_job_node :
  forall n m, job_node (update_job_node n m) n.(n_type) n.(n_id) = Some n.
Proof. intros n m; apply find_store_put. Qed.

Lemma skip_deleted_event_pure :
  forall env event m,
    exists b t, run (skip_deleted_event env event) m = (b, m, t)
                /\ forall p, ~ In (Scale p) t.
Proof.
  intros env event m; unfold run, skip_deleted_event.
  destruct (_ && _); unfold bind, emit, ret; simpl;
    eexists; eexists; split; try reflexivity;
    intros p H; simpl in H; intuition discriminate.
Qed.

Lemma update_info_keeps :
  forall ev cur,
    (update_info ev cur).(status) = cur.(status)
    /\ (update_info ev cur).(exit_reason) = cur.(exit_reason)
    /\ (update_info ev cur).(n_type) = cur.(n_type)
    /\ (update_info ev cur).(n_id) = cur.(n_id).
Proof.
  intros ev cur; unfold update_info; split_ifs; repeat split; reflexivity.
Qed.

(** C5 (as amended): an event other than ["exit"] on a stored node, whose
    state flow is none (or leaves [succeeded]), changes the store at most
    by the [update_info] refresh done before the flow is looked up (name,
    restart_training and is_released taken from the event's node, start
    and create time when given, host name and ip when non-empty, and
    relaunch_count raised to the event's only when that is larger): the
    node keeps its status and exit reason, and no ScalePlan is emitted. *)
Theorem process_event_no_flow_only_refreshes :
  forall env event m cur,
    job_node m event.(ev_node).(n_type) event.(ev_node).(n_id) = Some cur ->
    event.(event_type) <> EvExit ->
    match get_node_state_flow cur.(status) event.(event_type)
            event.(ev_node).(status) with
    | None => True
    | Some flow => flow.(from_status) = Succeeded
    end ->
    let '(_, m', tr) := run (_process_event env event) m in
    (m' = m \/ m' = update_job_node (update_info event.(ev_node) cur) m)
    /\ (exists cur', job_node m' event.(ev_node).(n_type) event.(ev_node).(n_id)
                     = Some cur'
                     /\ cur'.(status) = cur.(status)
                     /\ cur'.(exit_reason) = cur.(exit_reason))
    /\ forall p, ~ In (Scale p) tr.
Proof.
  intros env event m cur Hcur Hexit Hflow.
  destruct (skip_deleted_event_pure env event m) as [b [t [Hs Ht]]].
  destruct (update_info_keeps (ev_node event) cur) as [Hst [Hex [Hty Hid]]].
  unfold run, _process_event, bind in *; rewrite Hs.
  destruct b.
  - unfold ret; simpl; split; [left; reflexivity |].
    split; [exists cur; auto |].
    intros p; rewrite app_nil_r; apply Ht.
  - unfold process_event_update, get, bind, modify; rewrite Hcur.
    destruct (NodeEventType_beq (event_type event) EvExit) eqn:Hx.
    { apply internal_NodeEventType_dec_bl in Hx; contradiction. }
    rewrite Hst.
    assert (Hlook : job_node (update_job_node (update_info (ev_node event) cur) m)
                      (n_type (ev_node event)) (n_id (ev_node event))
                    = Some (update_info (ev_node event) cur)).
    { pose proof (job_node_update_job_node (update_info (ev_node event) cur) m)
        as H.
      rewrite Hty, Hid in H.
      assert (Ht' : n_type cur = n_type (ev_node event) /\
                    n_id cur = n_id (ev_node event)).
      { unfold job_node in Hcur; apply find_some in Hcur as [_ Hk].
        unfold same_key in Hk; apply andb_prop in Hk as [Hk1 Hk2].
        apply internal_NodeType_dec_bl in Hk1; apply Z.eqb_eq in Hk2; auto. }
      destruct Ht' as [E1 E2]; rewrite E1, E2 in H; exact H. }
    destruct (get_node_state_flow (status cur) (event_type event)
                (status (ev_node event))) as [flow |].
    + rewrite Hflow; simpl.
      split; [right; reflexivity |].
      split; [eexists; split; [exact Hlook | auto] |].
      intros p; rewrite !app_nil_r; apply Ht.
    + simpl.
      split; [right; reflexivity |].
      split; [eexists; split; [exact Hlook | auto] |].
      intros p; rewrite !app_nil_r; apply Ht.
Qed.

(** C5 fails as stated: worker 1 has succeeded, a [MODIFIED] event reports
    it running (no state flow out of [succeeded]), yet its name and host ip
    in the store take the event's values. *)
Lemma no_flow_event_changes_node_fields :
  get_node_state_flow Succeeded EvModified Running = None
  /\ let '(_, m', _) := run (_process_event sample_env renamed_running_event)
                           (sample_manager [sample_worker 1 Succeeded]) in
     exists cur', job_node m' Worker 1 = Some cur'
       /\ cur'.(name) <> (sample_worker 1 Succeeded).(name)
       /\ cur'.(host_ip) <> (sample_worker 1 Succeeded).(host_ip)
       /\ cur'.(status) = Succeeded.
Proof.
  split; [reflexivity |].
  vm_compute; eexists; split; [reflexivity |].
  repeat split; try discriminate; reflexivity.
Qed.

Lemma process_event_no_flow_only_refreshes_witness :
  let '(_, m', tr) := run (_process_event sample_env renamed_running_event)
                         (sample_manager [sample_worker 1 Succeeded]) in
  (m' = sample_manager [sample_worker 1 Succeeded]
   \/ m' = update_job_node (update_info renamed_running_event.(ev_node)
                              (sample_worker 1 Succeeded))
             (sample_manager [sample_worker 1 Succeeded]))
  /\ (exists cur', job_node m' Worker 1 = Some cur'
                   /\ cur'.(status) = Succeeded
                   /\ cur'.(exit_reason) = NoExit)
  /\ forall p, ~ In (Scale p) tr.
Proof.
  exact (process_event_no_flow_only_refreshes sample_env renamed_running_event
           (sample_manager [sample_worker 1 Succeeded]) (sample_worker 1 Succeeded)
           eq_refl ltac:(discriminate) I).
Defined.

(** ** Terminal statuses *)

(** C6 (code bug): [update_node_service_addr] sets a node's status to
    [running] with no guard, also for a node that has succeeded, although
    [_process_event] refuses every transition out of [succeeded]; a later
    failure then records a second terminal status [failed]. *)
Theorem service_addr_revives_succeeded_node :
  let m0 := sample_manager [sample_worker 1 Succeeded] in
  let '(_, m1, _) := run (update_node_service_addr Worker 1 "10.0.0.1:2222") m0 in
  let fail := mkEvent EvModified
                (set_exit_reason UnknownError (sample_worker 1 Failed)) in
  let '(_, m2, _) := run (_process_event sample_env fail) m1 in
  option_map status (job_node m0 Worker 1) = Some Succeeded
  /\ option_map status (job_node m1 Worker 1) = Some Running
  /\ option_map status (job_node m2 Worker 1) = Some Failed.
Proof. vm_compute; repeat split; reflexivity. Qed.

(** ** Killed exits *)

Lemma update_info_relaunchable :
  forall ev cur, (update_info ev cur).(relaunchable) = cur.(relaunchable).
Proof. intros ev cur; unfold update_info; split_ifs; reflexivity. Qed.

Lemma update_info_relaunch_count :
  forall ev cur, (update_info ev cur).(relaunch_count)
                 = Z.max cur.(relaunch_count) ev.(relaunch_count).
Proof. intros ev cur; unfold update_info; split_ifs; reflexivity. Qed.

Definition killed_worker_event : NodeEvent :=
  mkEvent EvModified
    (set_exit_reason Killed (set_relaunch_count 3 (sample_worker 4 Failed))).

(** C7 fails as stated: worker 4 of the sample job, running, fails with
    exit reason [killed]; [_process_event] relaunches it and passes a plan
    launching worker 5 to the scaler. *)
Lemma killed_worker_relaunched_example :
  let '(_, _, tr) := run (_process_event sample_env killed_worker_event)
                        (sample_manager [sample_worker 4 Running]) in
  exists plan, In (Scale plan) tr /\ map n_id plan.(launch_nodes) = [5].
Proof. vm_compute; eexists; split; [repeat first [left; reflexivity | right] | reflexivity]. Qed.

Lemma job_node_key :
  forall m t i cur, job_node m t i = Some cur ->
    cur.(n_type) = t /\ cur.(n_id) = i.
Proof.
  intros m t i cur H; unfold job_node in H; apply find_some in H as [_ Hk].
  unfold same_key in Hk; apply andb_prop in Hk as [Hk1 Hk2].
  apply internal_NodeType_dec_bl in Hk1; apply Z.eqb_eq in Hk2; auto.
Qed.

Opaque update_info.

(** C7 (as amended): a stored node that is running and receives a
    [MODIFIED] event reporting it failed with exit reason [killed] is
    relaunched whenever relaunch is enabled, the node is relaunchable and
    the job is not stopping, whatever its relaunch budget: a ScalePlan
    launching one replacement node is passed to the scaler and the stored
    node's [relaunch_count] is one more than the larger of its stored
    count and the event's (the [update_info] refresh keeps the larger). *)
Theorem killed_running_node_is_relaunched :
  forall env m cur enode,
    job_node m enode.(n_type) enode.(n_id) = Some cur ->
    cur.(status) = Running ->
    enode.(status) = Failed ->
    enode.(exit_reason) = Killed ->
    cur.(relaunchable) = true ->
    m.(enable_relaunch_node) = true ->
    m.(job_stage) <> JobStopping ->
    let '(_, m', tr) := run (_process_event env (mkEvent EvModified enode)) m in
    (exists plan, In (Scale plan) tr /\ length plan.(launch_nodes) = 1%nat)
    /\ exists old, job_node m' enode.(n_type) enode.(n_id) = Some old
                   /\ old.(relaunch_count)
                      = Z.max cur.(relaunch_count) enode.(relaunch_count) + 1.
Proof.
  intros env m cur enode Hcur Hrun Hfail Hkill Hrl Hen Hst.
  assert (Hst' : JobStage_beq (job_stage m) JobStopping = false)
    by (destruct (job_stage m); simpl; congruence).
  destruct (update_info_keeps enode cur) as [Hs [_ [Hty Hid]]].
  destruct (job_node_key m _ _ cur Hcur) as [Kt Ki].
  pose proof (update_info_relaunchable enode cur) as Hrl'.
  pose proof (update_info_relaunch_count enode cur) as Hrc.
  remember (update_info enode cur) as cur1 eqn:Hcur1.
  unfold run, _process_event, skip_deleted_event, bind, ret; simpl.
  rewrite Hfail, Hkill; simpl.
  unfold process_event_update, get, bind, modify; simpl.
  rewrite Hcur, <- Hcur1; simpl.
  rewrite Hs, Hrun, Hfail; simpl.
  unfold _should_relaunch, recheck_relaunch, get, bind, ret, emit; simpl.
  rewrite Hkill, Hrl', Hrl, Hen, Hst'; simpl.
  unfold _relaunch_node, relaunch_node, get, bind, ret, emit, modify,
    update_job_node, with_nodes; simpl.
  destruct (wait_pending_relaunch m); simpl; split.
  all: try (eexists; split;
            [repeat first [left; reflexivity | right] | reflexivity]).
  all: eexists; split; [rewrite <- Kt, <- Ki, <- Hty, <- Hid;
                        exact (find_store_put _ _) |].
  all: simpl; rewrite Hrc; reflexivity.
Qed.

Transparent update_info.

Lemma killed_running_node_is_relaunched_witness :
  let '(_, m', tr) := run (_process_event sample_env
                             (mkEvent EvModified killed_worker_event.(ev_node)))
                          (sample_manager [sample_worker 4 Running]) in
  (exists plan, In (Scale plan) tr /\ length plan.(launch_nodes) = 1%nat)
  /\ exists old, job_node m' Worker 4 = Some old
                 /\ old.(relaunch_count) = Z.max 0 3 + 1.
Proof.
  exact (killed_running_node_is_relaunched sample_env
           (sample_manager [sample_worker 4 Running]) (sample_worker 4 Running)
           killed_worker_event.(ev_node) eq_refl eq_refl eq_refl eq_refl eq_refl
           eq_refl ltac:(discriminate)).
Defined.

(** ** Early stop *)

(** C8: [should_early_stop] checks, in this order, (1) all initial workers
    failed the node check, for all-reduce jobs only; (2) an OOM-recovered
    PS pending past its timeout; (3) a pending node causing a training
    hang, found by the PS manager or else the worker manager; (4)
    insufficient workers, for all-reduce jobs only; the first that holds
    gives (true, NODE_CHECK_FAILED | PENDING_TIMEOUT | PENDING_TIMEOUT |
    UNCOMPLETED_TIMEOUT, its message), and (false, "", "") when none
    holds. *)
Theorem should_early_stop_order :
  forall env d m,
    let r := fst (fst (run (should_early_stop env d) m)) in
    let c1 := env.(all_reduce) = true
              /\ d.(all_initial_workers_node_check_failed) = true in
    let c2 := d.(pending_timeout_oom_recovered_ps) <> [] in
    let c3 := d.(ps_pending_node_caused_hang) <> None
              \/ d.(worker_pending_node_caused_hang) <> None in
    let c4 := env.(all_reduce) = true
              /\ d.(training_hang_by_insufficient_worker) = true in
    (c1 -> r = (true, NodeCheckFailed, msg_node_check))
    /\ (~ c1 -> c2 -> r = (true, PendingTimeout, msg_ps_oom))
    /\ (~ c1 -> ~ c2 -> c3 -> r = (true, PendingTimeout, msg_pending))
    /\ (~ c1 -> ~ c2 -> ~ c3 -> c4 ->
        r = (true, UncompletedTimeout, msg_insufficient))
    /\ (~ c1 -> ~ c2 -> ~ c3 -> ~ c4 -> r = (false, ExitNone, ""))
    /\ snd (fst (run (should_early_stop env d) m)) = m.
Proof.
  intros env d m; cbv zeta.
  unfold run, should_early_stop, bind, emit, ret.
  destruct (all_reduce env), (all_initial_workers_node_check_failed d),
    (pending_timeout_oom_recovered_ps d) as [| n0 l],
    (ps_pending_node_caused_hang d) as [p |],
    (worker_pending_node_caused_hang d) as [w |],
    (training_hang_by_insufficient_worker d); simpl;
  repeat split; intros; try reflexivity;
  repeat match goal with
  | H : ~ (_ /\ _) |- _ => exfalso; apply H; split; reflexivity
  | H : ~ (_ <> _) |- _ => exfalso; apply H; discriminate
  | H : _ /\ _ |- _ => destruct H
  | H : _ \/ _ |- _ => destruct H
  | H : false = true |- _ => discriminate H
  | H : ?x <> ?x |- _ => exfalso; apply H; reflexivity
  | H : ~ (_ \/ _) |- _ =>
      exfalso; apply H; (left; discriminate) || (right; discriminate)
  end.
Qed.

Lemma should_early_stop_order_witness :
  fst (fst (run (should_early_stop allreduce_env only_insufficient)
              (sample_manager [])))
  = (true, UncompletedTimeout, msg_insufficient).
Proof.
  apply (proj1 (proj2 (proj2 (proj2
           (should_early_stop_order allreduce_env only_insufficient
              (sample_manager [])))))).
  - intros [_ H]; discriminate H.
  - intros H; apply H; reflexivity.
  - intros [H | H]; apply H; reflexivity.
  - split; reflexivity.
Defined.

(** ** After [stop] *)

Definition no_scale (tr : list Effect) : Prop := forall p, ~ In (Scale p) tr.

Lemma should_relaunch_disabled :
  forall env node flow m,
    m.(enable_relaunch_node) = false ->
    _should_relaunch env node flow m = ((false, node), m, []).
Proof.
  intros env node flow m Hen.
  unfold _should_relaunch, get, bind, ret, emit; rewrite Hen, andb_false_r.
  reflexivity.
Qed.

Lemma process_node_events_quiet :
  forall flow m, exists t, _process_node_events flow m = (tt, m, t) /\ no_scale t.
Proof.
  intros flow m; unfold _process_node_events, emit, ret.
  destruct (to_status flow);
    try (destruct (_ && _));
    eexists; split; try reflexivity;
    intros p H; simpl in H; intuition discriminate.
Qed.

Lemma no_scale_app : forall t1 t2, no_scale t1 -> no_scale t2 -> no_scale (t1 ++ t2).
Proof.
  intros t1 t2 H1 H2 p H; apply in_app_iff in H as [H | H];
    [exact (H1 p H) | exact (H2 p H)].
Qed.

Lemma no_scale_nil : no_scale [].
Proof. intros p []. Qed.

Opaque update_info store_put.

(** With relaunch disabled, an event other than ["exit"] emits no
    ScalePlan and leaves relaunch disabled. *)
Lemma process_event_quiet_when_disabled :
  forall env event m,
    m.(enable_relaunch_node) = false ->
    event.(event_type) <> EvExit ->
    let '(_, m', tr) := run (_process_event env event) m in
    m'.(enable_relaunch_node) = false /\ no_scale tr.
Proof.
  intros env event m Hen Hexit.
  destruct (skip_deleted_event_pure env event m) as [b [t [Hs Ht]]].
  unfold run, _process_event, bind in *; rewrite Hs.
  destruct b.
  { unfold ret; rewrite app_nil_r; split; [exact Hen | exact Ht]. }
  unfold process_event_update, get, bind, modify, ret.
  destruct (job_node m _ _) as [cur |]; simpl;
    [| rewrite !app_nil_r; split; [exact Hen | exact Ht]].
  destruct (NodeEventType_beq (event_type event) EvExit) eqn:Hx.
  { apply internal_NodeEventType_dec_bl in Hx; contradiction. }
  destruct (get_node_state_flow _ _ _) as [flow |]; simpl;
    [| rewrite !app_nil_r; split; [exact Hen | exact Ht]].
  destruct (NodeStatus_beq (from_status flow) Succeeded); simpl;
    [rewrite !app_nil_r; split; [exact Hen | exact Ht] |].
  match goal with
  | |- context [_process_node_events flow ?m1] =>
      destruct (process_node_events_quiet flow m1) as [t1 [E1 Ht1]];
      rewrite E1
  end.
  rewrite should_relaunch_disabled by (simpl; exact Hen).
  simpl.
  destruct (wait_pending_relaunch m); simpl;
    (split; [exact Hen |]);
    rewrite ?app_nil_r;
    repeat apply no_scale_app; auto using no_scale_nil;
    intros p H; simpl in H; intuition discriminate.
Qed.

Transparent update_info store_put.

Lemma process_events_quiet_when_disabled :
  forall env events m,
    m.(enable_relaunch_node) = false ->
    Forall (fun e => e.(event_type) <> EvExit) events ->
    let '(_, m', tr) := run (process_events env events) m in
    m'.(enable_relaunch_node) = false /\ no_scale tr.
Proof.
  intros env events; induction events as [| e es IH]; intros m Hen Hall.
  - split; [exact Hen | apply no_scale_nil].
  - inversion Hall as [| e' es' He Hes]; subst.
    pose proof (process_event_quiet_when_disabled env e m Hen He) as H1.
    unfold run in *; simpl; unfold bind.
    destruct (_process_event env e m) as [[u m1] t1].
    destruct H1 as [Hen1 Ht1].
    pose proof (IH m1 Hen1 Hes) as H2.
    destruct (process_events env es m1) as [[u2 m2] t2].
    destruct H2 as [Hen2 Ht2]; split; [exact Hen2 | apply no_scale_app; auto].
Qed.

Lemma stopped_nodes_released :
  forall env l,
    forallb (fun n => n.(is_released))
      (map (fun n => if NodeType_beq n.(n_type) Worker
                     then set_eval_time (env.(worker_eval_time) n.(n_id)) n
                     else n)
         (map (fun n => set_relaunchable false (set_is_released true
                          (set_critical false n))) l)) = true.
Proof.
  intros env l; induction l as [| x l IH]; simpl; [reflexivity |].
  destruct (NodeType_beq (n_type x) Worker); simpl; exact IH.
Qed.

Lemma released_filters :
  forall l, forallb (fun n => n.(is_released)) l = true ->
    filter releasable_exited l = [] /\ filter (fun n => negb n.(is_released)) l = [].
Proof.
  intros l; induction l as [| x l IH]; simpl; [auto |].
  intros H; apply andb_prop in H as [Hx Hl].
  unfold releasable_exited; rewrite Hx; simpl; exact (IH Hl).
Qed.

(** C9 (as amended): once [stop] has run (on a manager not yet stopped),
    it has emitted no ScalePlan, relaunch is disabled, and processing any
    sequence of events none of which is ["exit"] passes no ScalePlan to the
    scaler; [clear_exited_nodes] called right after passes none either,
    while [clear_all_nodes] called right after still passes one ScalePlan,
    the empty one, since it calls [scale] unconditionally. *)
Theorem stop_silences_relaunch_and_cleanup :
  forall env m,
    m.(stopped) = false ->
    let '(_, m1, t0) := run (stop env) m in
    no_scale t0
    /\ m1.(stopped) = true
    /\ m1.(enable_relaunch_node) = false
    /\ (forall events,
          Forall (fun e => e.(event_type) <> EvExit) events ->
          no_scale (snd (run (process_events env events) m1)))
    /\ snd (run clear_exited_nodes m1) = []
    /\ snd (run clear_all_nodes m1) = [Scale empty_plan].
Proof.
  intros env m Hst.
  unfold run, stop, get, bind, modify, ret; rewrite Hst; simpl.
  destruct (released_filters _ (stopped_nodes_released env (job_nodes m)))
    as [Hf1 Hf2].
  split; [apply no_scale_nil |].
  split; [reflexivity |].
  split; [reflexivity |].
  split.
  - intros events Hall.
    match goal with
    | |- no_scale (snd (process_events env events ?m1)) =>
        assert (Hen : m1.(enable_relaunch_node) = false) by reflexivity;
        pose proof (process_events_quiet_when_disabled env events m1 Hen Hall)
          as H;
        unfold run in H; destruct (process_events env events m1)
          as [[u m2] t2]; exact (proj2 H)
    end.
  - split.
    + unfold clear_exited_nodes, get, bind, modify, ret; simpl.
      destruct (remove_exited_node m); simpl; [rewrite Hf1 |]; reflexivity.
    + unfold clear_all_nodes, get, bind, modify, emit; simpl.
      rewrite Hf2; reflexivity.
Qed.

Lemma stop_silences_relaunch_and_cleanup_witness :
  let '(_, m1, t0) := run (stop sample_env)
                          (sample_manager [sample_worker 0 Running]) in
  no_scale t0
  /\ m1.(stopped) = true
  /\ m1.(enable_relaunch_node) = false
  /\ (forall events,
        Forall (fun e => e.(event_type) <> EvExit) events ->
        no_scale (snd (run (process_events sample_env events) m1)))
  /\ snd (run clear_exited_nodes m1) = []
  /\ snd (run clear_all_nodes m1) = [Scale empty_plan].
Proof.
  exact (stop_silences_relaunch_and_cleanup sample_env
           (sample_manager [sample_worker 0 Running]) eq_refl).
Defined.

(** C9 fails as stated: after [stop], [clear_all_nodes] still passes a
    ScalePlan to the scaler. *)
Lemma clear_all_nodes_scales_after_stop :
  let '(_, m1, _) := run (stop sample_env)
                         (sample_manager [sample_worker 0 Running]) in
  exists plan, In (Scale plan) (snd (run clear_all_nodes m1)).
Proof. vm_compute; eexists; left; reflexivity. Qed.

(** ** Reported node events *)

Lemma keeps_stage_bind :
  forall A B (c : M A) (k : A -> M B),
    keeps_stage c -> (forall a, keeps_stage (k a)) -> keeps_stage (bind c k).
Proof.
  intros A B c k Hc Hk m; unfold bind.
  specialize (Hc m); destruct (c m) as [[a m1] t1]; simpl in Hc.
  specialize (Hk a m1); destruct (k a m1) as [[b m2] t2]; simpl in *.
  congruence.
Qed.

Ltac keeps_stage_tac :=
  repeat (cbn zeta beta iota;
    match goal with
    | |- keeps_stage (bind _ _) => apply keeps_stage_bind; [| intros ?]
    | |- keeps_stage (match ?x with _ => _ end) => destruct x
    | |- keeps_stage (if ?b then _ else _) => destruct b
    | |- keeps_stage _ => intros ?; reflexivity
    end).

Lemma process_event_keeps_stage :
  forall env event, keeps_stage (_process_event env event).
Proof.
  intros env event.
  unfold _process_event, skip_deleted_event, process_event_update,
    close_job, _process_node_events, _should_relaunch, recheck_relaunch,
    adjust_oom_resource, _relaunch_node, relaunch_node.
  keeps_stage_tac.
Qed.

Lemma process_events_keeps_stage :
  forall env events, keeps_stage (process_events env events).
Proof.
  intros env events; induction events as [| e es IH]; simpl.
  - intros m; reflexivity.
  - apply keeps_stage_bind; [apply process_event_keeps_stage | intros _; exact IH].
Qed.

Lemma should_relaunch_when_stopping :
  forall env node flow m,
    m.(job_stage) = JobStopping ->
    fst (fst (run (_should_relaunch env node flow) m)) = (false, node)
    /\ snd (run (_should_relaunch env node flow) m)
       = if fl_should_relaunch flow && enable_relaunch_node m
            && relaunchable node
         then [ReportNotRelaunch (node_key node)
                 "Disable relaunch when job is stopping"]
         else [].
Proof.
  intros env node flow m Hst.
  unfold run, _should_relaunch, recheck_relaunch, get, bind, ret, emit.
  rewrite Hst; simpl.
  destruct (fl_should_relaunch flow && enable_relaunch_node m
            && relaunchable node); split; reflexivity.
Qed.

(** C10: [process_reported_node_event] stores the reported event type as
    the [reported_status] of the node when it is in the store, and sets
    the job stage to [JOB_STOPPING] exactly when the event type is
    [SUCCEEDED_EXITED], leaving it unchanged otherwise.  After such a
    report, however many events follow, every [_should_relaunch] call
    refuses, and reports the job-stopping reason whenever the transition,
    the manager and the node would otherwise allow a relaunch. *)
Theorem reported_event_updates_status_and_stage :
  forall event m,
    let '(_, m', _) := run (process_reported_node_event event) m in
    (forall target,
       job_node m event.(ev_node).(n_type) event.(ev_node).(n_id) = Some target ->
       job_node m' event.(ev_node).(n_type) event.(ev_node).(n_id)
       = Some (set_reported_status event.(event_type) target))
    /\ m'.(job_stage) = (if NodeEventType_beq event.(event_type) EvSucceededExited
                         then JobStopping else m.(job_stage))
    /\ (event.(event_type) = EvSucceededExited ->
        forall env events node flow,
          let m'' := snd (fst (run (process_events env events) m')) in
          fst (fst (run (_should_relaunch env node flow) m'')) = (false, node)
          /\ snd (run (_should_relaunch env node flow) m'')
             = if fl_should_relaunch flow && enable_relaunch_node m''
                  && relaunchable node
               then [ReportNotRelaunch (node_key node)
                       "Disable relaunch when job is stopping"]
               else []).
Proof.
  intros event m.
  unfold run, process_reported_node_event, get, bind, modify, ret.
  destruct (job_node m (n_type (ev_node event)) (n_id (ev_node event)))
    as [target |] eqn:Hj; simpl.
  - destruct (job_node_key m _ _ target Hj) as [Kt Ki].
    assert (Hput : job_node (update_job_node
                     (update_reported_status (event_type event) target) m)
                     (n_type (ev_node event)) (n_id (ev_node event))
                   = Some (set_reported_status (event_type event) target)).
    { rewrite <- Kt, <- Ki; exact (job_node_update_job_node _ m). }
    destruct (NodeEventType_beq (event_type event) EvSucceededExited) eqn:Hse;
      simpl.
    + split; [intros t Ht; assert (t = target) by (unfold job_node in *; congruence);
             subst t; exact Hput |].
      split; [reflexivity |].
      intros _ env events node flow.
      apply should_relaunch_when_stopping.
      rewrite process_events_keeps_stage; reflexivity.
    + split; [intros t Ht; assert (t = target) by (unfold job_node in *; congruence);
             subst t; exact Hput |].
      split; [reflexivity |].
      intros He; rewrite He in Hse; discriminate.
  - destruct (NodeEventType_beq (event_type event) EvSucceededExited) eqn:Hse;
      simpl.
    + split; [intros t Ht; unfold job_node in *; congruence |].
      split; [reflexivity |].
      intros _ env events node flow.
      apply should_relaunch_when_stopping.
      rewrite process_events_keeps_stage; reflexivity.
    + split; [intros t Ht; unfold job_node in *; congruence |].
      split; [reflexivity |].
      intros He; rewrite He in Hse; discriminate.
Qed.

Lemma reported_event_updates_status_and_stage_witness :
  let ev := mkEvent EvSucceededExited (sample_worker 0 Running) in
  let '(_, m', _) := run (process_reported_node_event ev)
                         (sample_manager [sample_worker 0 Running]) in
  job_node m' Worker 0
  = Some (set_reported_status EvSucceededExited (sample_worker 0 Running))
  /\ m'.(job_stage) = JobStopping
  /\ fst (fst (run (_should_relaunch sample_env (sample_worker 0 Failed)
                      (mkFlow Running Failed true))
                 (snd (fst (run (process_events sample_env []) m')))))
     = (false, sample_worker 0 Failed).
Proof.
  cbv zeta.
  generalize (reported_event_updates_status_and_stage
                (mkEvent EvSucceededExited (sample_worker 0 Running))
                (sample_manager [sample_worker 0 Running])).
  unfold run.
  destruct (process_reported_node_event
              (mkEvent EvSucceededExited (sample_worker 0 Running))
              (sample_manager [sample_worker 0 Running])) as [[u m'] t].
  intros [H1 [H2 H3]]; split; [apply H1; reflexivity |].
  split; [exact H2 |].
  exact (proj1 (H3 eq_refl sample_env [] (sample_worker 0 Failed)
                  (mkFlow Running Failed true))).
Defined.

(** ** Further properties of the manager *)


(** [_should_relaunch] leaves the manager as it is and calls no
    collaborator other than the optimizer's [adjust_oom_resource] and the
    not-relaunch report, both about this node; the node it returns keeps
    its type, id, status and exit reason, and its [relaunch_count] is one
    more exactly when the verdict is to relaunch. *)
Theorem should_relaunch_only_bumps_count :
  forall env node flow m,
    let '(r, m', tr) := run (_should_relaunch env node flow) m in
    m' = m
    /\ (forall e, In e tr ->
          e = AdjustOOMResource (node_key node)
          \/ exists msg, e = ReportNotRelaunch (node_key node) msg)
    /\ (snd r).(n_type) = node.(n_type) /\ (snd r).(n_id) = node.(n_id)
    /\ (snd r).(status) = node.(status)
    /\ (snd r).(exit_reason) = node.(exit_reason)
    /\ (snd r).(relaunch_count)
       = node.(relaunch_count) + (if fst r then 1 else 0).
Proof.
  intros env node flow m.
  unfold run, _should_relaunch, recheck_relaunch, adjust_oom_resource,
    get, bind, ret, emit; cbv beta iota zeta.
  repeat (cbv beta iota zeta delta [fst snd];
          match goal with
          | |- context [if ?c then _ else _] => destruct c
          end);
  cbn; repeat split; try lia;
  try (intros e He; simpl in He; intuition (subst; eauto)).
Qed.

(** When the transition is not relaunch-eligible, relaunch is disabled or
    the node is not relaunchable, [_should_relaunch] answers false, leaves
    the node and the manager unchanged and calls nothing. *)
Theorem should_relaunch_gate_closed :
  forall env node flow m,
    (flow.(fl_should_relaunch) = false \/ m.(enable_relaunch_node) = false
     \/ node.(relaunchable) = false) ->
    run (_should_relaunch env node flow) m = ((false, node), m, []).
Proof.
  intros env node flow m H.
  unfold run, _should_relaunch, get, bind, ret, emit; cbv beta iota zeta.
  destruct H as [H | [H | H]]; rewrite H;
    rewrite ?andb_false_r; reflexivity.
Qed.

Lemma should_relaunch_gate_closed_witness :
  run (_should_relaunch sample_env (sample_worker 1 Failed)
         (mkFlow Running Succeeded false)) (sample_manager [])
  = ((false, sample_worker 1 Failed), sample_manager [], []).
Proof.
  exact (should_relaunch_gate_closed sample_env (sample_worker 1 Failed)
           (mkFlow Running Succeeded false) (sample_manager [])
           (or_introl eq_refl)).
Defined.

(** A node whose exit reason is [fatal_error] (without [relaunch_always])
    or [relaunched] is never relaunched, and its relaunch count is left
    as it is. *)
Theorem should_relaunch_refuses_fatal_and_relaunched :
  forall env node flow m,
    ((node.(exit_reason) = FatalError /\ env.(relaunch_always) = false)
     \/ node.(exit_reason) = Relaunched) ->
    fst (fst (run (_should_relaunch env node flow) m)) = (false, node).
Proof.
  intros env node flow m H.
  unfold run, _should_relaunch, recheck_relaunch, get, bind, ret, emit;
    cbv beta iota zeta.
  destruct (fl_should_relaunch flow && enable_relaunch_node m
            && relaunchable node); [| reflexivity].
  destruct (JobStage_beq (job_stage m) JobStopping); [reflexivity |].
  destruct H as [[He Ha] | He]; rewrite He; [rewrite Ha |]; reflexivity.
Qed.

Lemma should_relaunch_refuses_fatal_and_relaunched_witness :
  fst (fst (run (_should_relaunch sample_env
                   (set_exit_reason FatalError (sample_worker 1 Failed))
                   (mkFlow Running Failed true))
              (sample_manager [])))
  = (false, set_exit_reason FatalError (sample_worker 1 Failed)).
Proof.
  exact (should_relaunch_refuses_fatal_and_relaunched sample_env
           (set_exit_reason FatalError (sample_worker 1 Failed))
           (mkFlow Running Failed true) (sample_manager [])
           (or_introl (conj eq_refl eq_refl))).
Defined.

Lemma skip_deleted_event_positive :
  forall env event,
    is_positive_exit event.(ev_node).(exit_reason) = true ->
    skip_deleted_event env event = ret false.
Proof.
  intros env event H; unfold skip_deleted_event; rewrite H, andb_false_r.
  reflexivity.
Qed.

(** An event for a node that is not in the store changes nothing; the
    only call it may make is the pod query of the deletion filter. *)
Theorem process_event_unknown_node :
  forall env event m,
    job_node m event.(ev_node).(n_type) event.(ev_node).(n_id) = None ->
    let '(_, m', tr) := run (_process_event env event) m in
    m' = m
    /\ forall e, In e tr -> e = QueryPods (_get_pod_unique_labels env event.(ev_node)).
Proof.
  intros env event m Hn.
  unfold run, _process_event, skip_deleted_event, bind, emit, ret;
    cbv beta iota zeta.
  destruct (_ && _); cbv beta iota zeta;
  [destruct (running_pod_exists _) |]; cbv beta iota zeta;
  try (split; [reflexivity | intros e He; simpl in He; intuition]).
  all: unfold process_event_update, get, bind, ret; cbv beta iota zeta;
       rewrite Hn; split; [reflexivity | intros e He; simpl in He; intuition].
Qed.

Lemma process_event_unknown_node_witness :
  let '(_, m', tr) := run (_process_event sample_env
                             (mkEvent EvDeleted (sample_worker 7 Running)))
                          (sample_manager [sample_worker 1 Running]) in
  m' = sample_manager [sample_worker 1 Running]
  /\ forall e, In e tr ->
       e = QueryPods (_get_pod_unique_labels sample_env (sample_worker 7 Running)).
Proof.
  exact (process_event_unknown_node sample_env
           (mkEvent EvDeleted (sample_worker 7 Running))
           (sample_manager [sample_worker 1 Running]) eq_refl).
Defined.

(** An ["exit"] event for a stored node (whose status is not [deleted])
    makes exactly two calls: the plan with zero workers and zero PS nodes
    passed to the scaler, then [os._exit(0)]. *)
Theorem exit_event_closes_job :
  forall env enode m cur,
    job_node m enode.(n_type) enode.(n_id) = Some cur ->
    enode.(status) <> Deleted ->
    snd (run (_process_event env (mkEvent EvExit enode)) m)
    = [Scale (mkPlan [(Worker, 0); (PS, 0)] [] [] []); ProcessExit].
Proof.
  intros env enode m cur Hj Hd.
  assert (Hs : NodeStatus_beq (status enode) Deleted = false)
    by (destruct (status enode); simpl; congruence).
  unfold run, _process_event, skip_deleted_event, bind, emit, ret;
    cbv beta iota zeta; simpl; rewrite Hs; simpl.
  unfold process_event_update, close_job, get, modify, bind, emit, ret;
    cbv beta iota zeta; unfold job_node in *; simpl; rewrite Hj; reflexivity.
Qed.

Lemma exit_event_closes_job_witness :
  snd (run (_process_event sample_env (mkEvent EvExit (sample_worker 1 Running)))
           (sample_manager [sample_worker 1 Running]))
  = [Scale (mkPlan [(Worker, 0); (PS, 0)] [] [] []); ProcessExit].
Proof.
  exact (exit_event_closes_job sample_env (sample_worker 1 Running)
           (sample_manager [sample_worker 1 Running]) (sample_worker 1 Running)
           eq_refl ltac:(discriminate)).
Defined.

(** A diagnosis [NodeAction] never queries the cluster for pods (its event
    carries the positive exit [diag_fail]); for a node not in the store it
    changes nothing and calls nothing. *)
Theorem process_node_action_never_queries_pods :
  forall env action m,
    let '(_, m', tr) := run (_process_node_action env action) m in
    (forall l, ~ In (QueryPods l) tr)
    /\ (job_node m action.(action_node_type) action.(action_node_id) = None ->
        m' = m /\ tr = []).
Proof.
  intros env action m.
  unfold run, _process_node_action, get, bind, ret; cbv beta iota zeta.
  destruct (job_node m _ _) as [target |] eqn:Hj.
  - unfold _process_event_safely, _process_event.
    rewrite skip_deleted_event_positive by reflexivity.
    pose proof (process_event_update_no_pod_query env
      (mkEvent EvDeleted (set_exit_reason DiagFail (set_status Failed target))))
      as Hq.
    unfold bind, ret; cbv beta iota zeta.
    specialize (Hq m).
    destruct (process_event_update env _ m) as [[u m1] t1].
    split; [exact Hq | intros H; discriminate].
  - split; [intros l [] | intros _; split; reflexivity].
Qed.

Lemma same_key_eq :
  forall t i x, same_key t i x = true <-> x.(n_type) = t /\ x.(n_id) = i.
Proof.
  intros t i x; unfold same_key; rewrite andb_true_iff, Z.eqb_eq; split.
  - intros [H1 H2]; apply internal_NodeType_dec_bl in H1; auto.
  - intros [H1 H2]; split; [apply internal_NodeType_dec_lb |]; auto.
Qed.

Lemma existsb_store_put :
  forall n l t i, existsb (same_key t i) l = true ->
    existsb (same_key t i) (store_put n l) = true.
Proof.
  intros n l t i H; unfold store_put.
  destruct (existsb (same_key (n_type n) (n_id n)) l).
  - induction l as [| x l IH]; simpl in *; [discriminate |].
    apply orb_true_iff in H as [H | H].
    + apply orb_true_iff; left.
      destruct (same_key (n_type n) (n_id n) x) eqn:Hx; [| exact H].
      apply same_key_eq in H as [H1 H2]; apply same_key_eq in Hx as [H3 H4].
      apply same_key_eq; split; congruence.
    + apply orb_true_iff; right; exact (IH H).
  - rewrite existsb_app, H; reflexivity.
Qed.

Lemma find_existsb :
  forall (f : Node -> bool) l, find f l <> None <-> existsb f l = true.
Proof.
  intros f l; induction l as [| x l IH]; simpl.
  - split; [intros H; contradiction H; reflexivity | discriminate].
  - destruct (f x); simpl; [split; [reflexivity | discriminate] | exact IH].
Qed.

Lemma keeps_nodes_bind :
  forall A B (c : M A) (k : A -> M B),
    keeps_nodes c -> (forall a, keeps_nodes (k a)) -> keeps_nodes (bind c k).
Proof.
  intros A B c k Hc Hk m t i H; unfold bind.
  specialize (Hc m t i H); destruct (c m) as [[a m1] t1]; simpl in Hc.
  specialize (Hk a m1 t i Hc); destruct (k a m1) as [[b m2] t2]; exact Hk.
Qed.

Lemma keeps_nodes_update :
  forall n, keeps_nodes (modify (update_job_node n)).
Proof. intros n m t i H; apply existsb_store_put; exact H. Qed.

Ltac keeps_nodes_tac :=
  repeat (cbn zeta beta iota;
    match goal with
    | |- keeps_nodes (bind _ _) => apply keeps_nodes_bind; [| intros ?]
    | |- keeps_nodes (modify (update_job_node _)) => apply keeps_nodes_update
    | |- keeps_nodes (match ?x with _ => _ end) => destruct x
    | |- keeps_nodes (if ?b then _ else _) => destruct b
    | |- keeps_nodes _ => intros ? ? ? ?; assumption
    end).

Lemma process_event_keeps_nodes :
  forall env event, keeps_nodes (_process_event env event).
Proof.
  intros env event.
  unfold _process_event, skip_deleted_event, process_event_update,
    close_job, _process_node_events, _should_relaunch, recheck_relaunch,
    adjust_oom_resource, _relaunch_node, relaunch_node.
  keeps_nodes_tac.
Qed.

(** Processing events never removes a node from the store and never
    changes the job stage. *)
Theorem process_events_keep_nodes_and_stage :
  forall env events m t i,
    job_node m t i <> None ->
    let m' := snd (fst (run (process_events env events) m)) in
    job_node m' t i <> None /\ m'.(job_stage) = m.(job_stage).
Proof.
  intros env events m t i H; cbv zeta; split.
  - unfold job_node in *; apply find_existsb in H; apply find_existsb.
    revert m H; induction events as [| e es IH]; intros m H; [exact H |].
    unfold run; simpl; unfold bind.
    pose proof (process_event_keeps_nodes env e m t i H) as H1.
    destruct (_process_event env e m) as [[u m1] t1]; simpl in H1.
    specialize (IH m1 H1); unfold run in IH.
    destruct (process_events env es m1) as [[u2 m2] t2]; exact IH.
  - apply process_events_keeps_stage.
Qed.

Lemma process_events_keep_nodes_and_stage_witness :
  let m := sample_manager [sample_worker 4 Running] in
  let m' := snd (fst (run (process_events sample_env [killed_worker_event]) m)) in
  job_node m' Worker 4 <> None /\ m'.(job_stage) = m.(job_stage).
Proof.
  exact (process_events_keep_nodes_and_stage sample_env [killed_worker_event]
           (sample_manager [sample_worker 4 Running]) Worker 4
           ltac:(simpl; discriminate)).
Defined.

Lemma stop_nodes :
  forall env m, m.(stopped) = false ->
    run (stop env) m
    = (tt, set_stopped true (with_nodes
        (map (fun n => if NodeType_beq n.(n_type) Worker
                       then set_eval_time (env.(worker_eval_time) n.(n_id)) n
                       else n)
           (map (fun n => set_relaunchable false (set_is_released true
                            (set_critical false n))) m.(job_nodes)))
        (set_enable_relaunch_node false m)), []).
Proof.
  intros env m H; unfold run, stop, get, bind, modify, ret; rewrite H.
  reflexivity.
Qed.

(** [stop] on a running manager calls nothing, disables relaunch, keeps
    every node with its status, and leaves every node released, not
    relaunchable and not critical; a second [stop] does nothing. *)
Theorem stop_retires_nodes_once :
  forall env m,
    m.(stopped) = false ->
    let '(_, m1, tr) := run (stop env) m in
    tr = []
    /\ m1.(enable_relaunch_node) = false
    /\ map node_key m1.(job_nodes) = map node_key m.(job_nodes)
    /\ map status m1.(job_nodes) = map status m.(job_nodes)
    /\ (forall n, In n m1.(job_nodes) ->
          n.(is_released) = true /\ n.(relaunchable) = false
          /\ n.(critical) = false)
    /\ run (stop env) m1 = (tt, m1, []).
Proof.
  intros env m H; rewrite stop_nodes by exact H; simpl.
  split; [reflexivity |]; split; [reflexivity |].
  rewrite !map_map.
  split; [apply map_ext; intros n; destruct (NodeType_beq _ _); reflexivity |].
  split; [apply map_ext; intros n; destruct (NodeType_beq _ _); reflexivity |].
  split; [| reflexivity].
  intros n Hn; apply in_map_iff in Hn as [x [<- Hx]].
  destruct (NodeType_beq _ _); simpl; auto.
Qed.

Lemma stop_retires_nodes_once_witness :
  let m := sample_manager [set_critical true (sample_worker 0 Running)] in
  let '(_, m1, tr) := run (stop sample_env) m in
  tr = []
  /\ m1.(enable_relaunch_node) = false
  /\ map node_key m1.(job_nodes) = map node_key m.(job_nodes)
  /\ map status m1.(job_nodes) = map status m.(job_nodes)
  /\ (forall n, In n m1.(job_nodes) ->
        n.(is_released) = true /\ n.(relaunchable) = false
        /\ n.(critical) = false)
  /\ run (stop sample_env) m1 = (tt, m1, []).
Proof.
  exact (stop_retires_nodes_once sample_env
           (sample_manager [set_critical true (sample_worker 0 Running)])
           eq_refl).
Defined.

(** After [stop], [all_critical_node_completed] holds: [stop] clears the
    [critical] flag of every node. *)
Theorem stop_completes_critical_nodes :
  forall env m,
    m.(stopped) = false ->
    all_critical_node_completed (snd (fst (run (stop env) m))) = true.
Proof.
  intros env m H; rewrite stop_nodes by exact H; simpl.
  unfold all_critical_node_completed; simpl.
  induction (job_nodes m) as [| x l IH]; simpl; [reflexivity |].
  destruct (NodeType_beq _ _); simpl; exact IH.
Qed.

Lemma stop_completes_critical_nodes_witness :
  all_critical_node_completed
    (sample_manager [set_critical true (sample_worker 0 Running)]) = false
  /\ all_critical_node_completed
       (snd (fst (run (stop sample_env)
                   (sample_manager [set_critical true (sample_worker 0 Running)]))))
     = true.
Proof.
  split; [reflexivity |].
  exact (stop_completes_critical_nodes sample_env
           (sample_manager [set_critical true (sample_worker 0 Running)])
           eq_refl).
Defined.

(** [clear_exited_nodes] does nothing unless [remove_exited_node]; with
    it, every exited node ends released, keys and statuses are kept, a
    plan is passed only when non-empty and lists exited, released nodes,
    and a second call changes nothing and calls nothing. *)
Theorem clear_exited_nodes_releases_once :
  forall m,
    let '(_, m1, tr) := run clear_exited_nodes m in
    (m.(remove_exited_node) = false -> m1 = m /\ tr = [])
    /\ (m.(remove_exited_node) = true ->
        (forall n, In n m1.(job_nodes) ->
           n.(is_released) = true \/ exited n = false)
        /\ map node_key m1.(job_nodes) = map node_key m.(job_nodes)
        /\ map status m1.(job_nodes) = map status m.(job_nodes)
        /\ (forall p, In (Scale p) tr -> p.(remove_nodes) <> []
              /\ forall x, In x p.(remove_nodes) ->
                   exited x = true /\ x.(is_released) = true)
        /\ run clear_exited_nodes m1 = (tt, m1, [])).
Proof.
  intros m; unfold run, clear_exited_nodes, get, bind, modify, emit, ret;
    cbv beta iota zeta.
  destruct (remove_exited_node m) eqn:Hr; simpl.
  2:{ split; [auto | intros H; discriminate]. }
  set (f := fun n => if releasable_exited n then set_is_released true n else n).
  assert (Hf : forall n, releasable_exited (f n) = false).
  { intros n; unfold f, releasable_exited.
    destruct (negb (is_released n) && exited n) eqn:E; simpl; [reflexivity | exact E]. }
  assert (Hfix : map f (map f (job_nodes m)) = map f (job_nodes m)).
  { rewrite map_map; apply map_ext; intros n.
    change (f (f n)) with (if releasable_exited (f n)
                           then set_is_released true (f n) else f n).
    rewrite Hf; reflexivity. }
  assert (Hnil : filter releasable_exited (map f (job_nodes m)) = []).
  { clear Hfix; induction (job_nodes m) as [| x l IH]; simpl; [reflexivity |].
    rewrite Hf; exact IH. }
  assert (Hkeys : forall n, node_key (f n) = node_key n /\ status (f n) = status n).
  { intros n; unfold f; destruct (releasable_exited n); split; reflexivity. }
  assert (Hpost : forall n, In n (map f (job_nodes m)) ->
                    is_released n = true \/ exited n = false).
  { intros n Hn; apply in_map_iff in Hn as [x [<- _]].
    specialize (Hf x); unfold releasable_exited in Hf.
    destruct (is_released (f x)); [left; reflexivity | right; exact Hf]. }
  assert (Hsecond :
    (let* m0 := get in
     if negb (remove_exited_node m0) then ret tt else
     let removed := map (set_is_released true)
                      (filter releasable_exited (job_nodes m0)) in
     modify (with_nodes (map (fun n => if releasable_exited n
                                       then set_is_released true n else n)
                             (job_nodes m0))) ;;
     match removed with
     | [] => ret tt
     | _ => emit (Scale (mkPlan [] [] removed []))
     end) (with_nodes (map f (job_nodes m)) m)
    = (tt, with_nodes (map f (job_nodes m)) m, [])).
  { unfold get, bind, modify, ret; simpl; rewrite Hr; simpl.
    rewrite Hnil; simpl. fold f; rewrite Hfix; reflexivity. }
  destruct (map (set_is_released true) (filter releasable_exited (job_nodes m)))
    as [| r rs] eqn:Hrem; simpl.
  all: split; [intros H; discriminate |]; intros _.
  all: split; [exact Hpost |].
  all: split; [rewrite map_map; apply map_ext; intros n; apply Hkeys |].
  all: split; [rewrite map_map; apply map_ext; intros n; apply Hkeys |].
  all: split; [| exact Hsecond].
  - intros p [].
  - intros p [Hp | []]; injection Hp as <-; simpl.
    split; [discriminate |].
    intros x Hx; change (In x (r :: rs)) in Hx; rewrite <- Hrem in Hx; apply in_map_iff in Hx as [y [<- Hy]].
    apply filter_In in Hy as [_ Hy]; unfold releasable_exited in Hy.
    apply andb_prop in Hy as [_ Hy]; split; [exact Hy | reflexivity].
Qed.

(** [clear_all_nodes] releases every node, keeps keys and statuses, and
    passes exactly one plan to the scaler, removing the nodes that were not
    yet released, in store order. *)
Theorem clear_all_nodes_releases_all :
  forall m,
    let '(_, m1, tr) := run clear_all_nodes m in
    (forall n, In n m1.(job_nodes) -> n.(is_released) = true)
    /\ map node_key m1.(job_nodes) = map node_key m.(job_nodes)
    /\ map status m1.(job_nodes) = map status m.(job_nodes)
    /\ exists p, tr = [Scale p]
       /\ map node_key p.(remove_nodes)
          = map node_key (filter (fun n => negb n.(is_released)) m.(job_nodes))
       /\ forall x, In x p.(remove_nodes) -> x.(is_released) = true.
Proof.
  intros m; unfold run, clear_all_nodes, get, bind, modify, emit;
    cbv beta iota zeta; simpl.
  split; [intros n Hn; apply in_map_iff in Hn as [x [<- _]]; reflexivity |].
  split; [rewrite map_map; reflexivity |].
  split; [rewrite map_map; reflexivity |].
  eexists; split; [reflexivity |]; simpl.
  split; [rewrite map_map; reflexivity |].
  intros x Hx; apply in_map_iff in Hx as [y [<- _]]; reflexivity.
Qed.

(** On a store with a worker and a PS entry (so neither lookup raises),
    [remove_training_nodes] returns normally, keeps every node in the store, leaves no
    worker or PS node running or pending unreleased, leaves the other
    node types untouched, and passes exactly one plan removing the
    retired workers then the retired PS nodes, each deleted, released,
    not relaunchable and not critical. *)
Theorem remove_training_nodes_retires_training :
  forall m,
    has_type_entry Worker m = true -> has_type_entry PS m = true ->
    let '(r, m1, tr) := run remove_training_nodes m in
    r = Some tt
    /\ map node_key m1.(job_nodes) = map node_key m.(job_nodes)
    /\ (forall n, In n m1.(job_nodes) ->
          is_training_node n = true -> removable_training_node n = false)
    /\ filter (fun n => negb (is_training_node n)) m1.(job_nodes)
       = filter (fun n => negb (is_training_node n)) m.(job_nodes)
    /\ exists p, tr = [Scale p]
       /\ map node_key p.(remove_nodes)
          = map node_key
              (filter (fun n => NodeType_beq n.(n_type) Worker
                                && removable_training_node n) m.(job_nodes)
               ++ filter (fun n => NodeType_beq n.(n_type) PS
                                   && removable_training_node n) m.(job_nodes))
       /\ forall x, In x p.(remove_nodes) ->
            x.(status) = Deleted /\ x.(is_released) = true
            /\ x.(relaunchable) = false /\ x.(critical) = false.
Proof.
  intros m Hw Hp; unfold run, remove_training_nodes, get, bind, modify, emit, ret;
    cbv beta iota zeta; rewrite Hw, Hp; simpl.
  split; [reflexivity |].
  split.
  { rewrite map_map; apply map_ext; intros n.
    destruct (is_training_node n && removable_training_node n); reflexivity. }
  split.
  { intros n Hn; apply in_map_iff in Hn as [x [<- _]].
    destruct (is_training_node x && removable_training_node x) eqn:E;
      [reflexivity |].
    intros Ht; rewrite Ht in E; exact E. }
  split.
  { induction (job_nodes m) as [| x l IH]; simpl; [reflexivity |].
    destruct (is_training_node x) eqn:Ht; simpl.
    - destruct (removable_training_node x); simpl;
        [change (is_training_node (retire_training_node x))
           with (is_training_node x) |]; rewrite Ht; simpl; exact IH.
    - rewrite Ht; simpl; f_equal; exact IH. }
  eexists; split; [reflexivity |]; simpl.
  split.
  { rewrite map_map, filter_app, !map_app; f_equal.
    - induction (job_nodes m) as [| x l IH]; simpl; [reflexivity |].
      destruct (NodeType_beq (n_type x) Worker); simpl;
        [destruct (removable_training_node x); simpl; rewrite ?IH |];
        exact IH || reflexivity.
    - induction (job_nodes m) as [| x l IH]; simpl; [reflexivity |].
      destruct (NodeType_beq (n_type x) PS); simpl;
        [destruct (removable_training_node x); simpl; rewrite ?IH |];
        exact IH || reflexivity. }
  intros x Hx; apply in_map_iff in Hx as [y [<- _]]; simpl; auto.
Qed.

Lemma remove_training_nodes_retires_training_witness :
  let m := sample_manager [sample_worker 0 Running; sample_ps 0 Running;
                           sample_worker 1 Succeeded] in
  let '(r, m1, tr) := run remove_training_nodes m in
  r = Some tt
  /\ map node_key m1.(job_nodes) = map node_key m.(job_nodes)
  /\ (forall n, In n m1.(job_nodes) ->
        is_training_node n = true -> removable_training_node n = false)
  /\ filter (fun n => negb (is_training_node n)) m1.(job_nodes)
     = filter (fun n => negb (is_training_node n)) m.(job_nodes)
  /\ exists p, tr = [Scale p]
     /\ map node_key p.(remove_nodes)
        = map node_key
            (filter (fun n => NodeType_beq n.(n_type) Worker
                              && removable_training_node n) m.(job_nodes)
             ++ filter (fun n => NodeType_beq n.(n_type) PS
                                 && removable_training_node n) m.(job_nodes))
     /\ forall x, In x p.(remove_nodes) ->
          x.(status) = Deleted /\ x.(is_released) = true
          /\ x.(relaunchable) = false /\ x.(critical) = false.
Proof.
  exact (remove_training_nodes_retires_training
           (sample_manager [sample_worker 0 Running; sample_ps 0 Running;
                            sample_worker 1 Succeeded]) eq_refl eq_refl).
Defined.

Lemma find_store_put_other :
  forall n l t i, (n.(n_type), n.(n_id)) <> (t, i) ->
    find (same_key t i) (store_put n l) = find (same_key t i) l.
Proof.
  intros n l t i Hne.
  assert (Hn : same_key t i n = false).
  { destruct (same_key t i n) eqn:E; [| reflexivity].
    apply same_key_eq in E as [E1 E2]; subst; contradiction Hne; reflexivity. }
  unfold store_put; destruct (existsb _ l).
  - induction l as [| x l IH]; simpl; [reflexivity |].
    destruct (same_key (n_type n) (n_id n) x) eqn:Hx.
    + assert (Hx' : same_key t i x = false).
      { destruct (same_key t i x) eqn:E; [| reflexivity].
        apply same_key_eq in E as [E1 E2]; apply same_key_eq in Hx as [E3 E4].
        contradiction Hne; f_equal; congruence. }
      rewrite Hn, Hx'; exact IH.
    + destruct (same_key t i x); [reflexivity | exact IH].
  - induction l as [| x l IH]; simpl; [rewrite Hn; reflexivity |].
    destruct (same_key t i x); [reflexivity | exact IH].
Qed.

Lemma store_put_same_key :
  forall n l x, In x (store_put n l) ->
    same_key n.(n_type) n.(n_id) x = true -> x = n.
Proof.
  intros n l x Hin Hk; unfold store_put in Hin.
  destruct (existsb _ l) eqn:He.
  - apply in_map_iff in Hin as [y [<- Hy]].
    destruct (same_key (n_type n) (n_id n) y) eqn:Hy'; [reflexivity |].
    rewrite Hy' in Hk; congruence.
  - apply in_app_iff in Hin as [Hin | [Hin | []]]; [| symmetry; exact Hin].
    exfalso; assert (existsb (same_key (n_type n) (n_id n)) l = true)
      by (apply existsb_exists; eauto).
    congruence.
Qed.

(** [update_node_service_addr] calls nothing and changes nothing for a
    missing node; a stored node becomes running and unreleased with the
    new address, so a [clear_exited_nodes] right after never removes it. *)
Theorem service_addr_node_survives_cleanup :
  forall t i addr m,
    let '(_, m1, tr) := run (update_node_service_addr t i addr) m in
    tr = []
    /\ (job_node m t i = None -> m1 = m)
    /\ forall node, job_node m t i = Some node ->
         job_node m1 t i
         = Some (set_is_released false (set_status Running
                   (set_service_addr addr node)))
         /\ forall p x, In (Scale p) (snd (run clear_exited_nodes m1)) ->
              In x p.(remove_nodes) -> node_key x <> (t, i).
Proof.
  intros t i addr m; unfold run, update_node_service_addr, get, bind, modify, ret;
    cbv beta iota zeta.
  destruct (job_node m t i) as [node |] eqn:Hj.
  2:{ split; [reflexivity |]; split; [reflexivity |]; intros node H; discriminate. }
  destruct (job_node_key m t i node Hj) as [Kt Ki].
  set (nn := set_is_released false (set_status Running (set_service_addr addr node))).
  assert (Kn : n_type nn = t /\ n_id nn = i) by (split; assumption).
  split; [reflexivity |]; split; [intros H; discriminate |].
  intros node' H; injection H as <-.
  split.
  { destruct Kn as [<- <-]; apply job_node_update_job_node. }
  intros p x Hp Hx.
  unfold clear_exited_nodes, get, bind, modify, emit, ret in Hp;
    cbv beta iota zeta in Hp.
  destruct (negb _) in Hp; [destruct Hp |].
  match type of Hp with
  | context [match ?rm with [] => _ | _ :: _ => _ end] =>
      destruct rm as [| r rs] eqn:Hrem
  end; simpl in Hp; [destruct Hp as [] | ].
  destruct Hp as [Hp | []]; injection Hp as <-; simpl in Hx.
  change (In x (r :: rs)) in Hx; rewrite <- Hrem in Hx; apply in_map_iff in Hx as [y [<- Hy]].
  apply filter_In in Hy as [Hy Hre]; simpl in Hy.
  intros Hk; change (node_key y = (t, i)) in Hk.
  assert (Hyn : y = nn).
  { apply (store_put_same_key nn (job_nodes m)); [exact Hy |].
    destruct Kn as [Kt' Ki']; apply same_key_eq; unfold node_key in Hk;
    injection Hk as H1 H2; split; congruence. }
  subst y; unfold releasable_exited, exited in Hre; simpl in Hre.
  discriminate Hre.
Qed.

Lemma dead_node_event_some :
  forall now window x e,
    dead_node_event now window x = Some e ->
    e = mkEvent EvDeleted (set_exit_reason NoHeartbeat (set_status Failed x))
    /\ window < now - x.(heartbeat_time).
Proof.
  intros now window x e H; unfold dead_node_event in H.
  destruct (Z.ltb window (now - heartbeat_time x)) eqn:Hw.
  2:{ destruct (Z.ltb 0 (heartbeat_time x)); discriminate H. }
  apply Z.ltb_lt in Hw.
  destruct (_ && _); [| discriminate H].
  destruct (start_time x), (create_time x); try discriminate H.
  destruct (_ || _); [discriminate H |].
  injection H as <-; auto.
Qed.

Lemma in_dead_node_events :
  forall now window m e,
    In e (_get_dead_node_event now window m) ->
    exists x, In x m.(job_nodes) /\ dead_node_event now window x = Some e.
Proof.
  intros now window m e H; unfold _get_dead_node_event in H.
  apply in_flat_map in H as [x [Hx He]].
  destruct (dead_node_event now window x) eqn:Hd; [| destruct He].
  destruct He as [<- | []]; eauto.
Qed.

(** A node reported dead at time [now] with window [window] is still
    reported at any later time and with any shorter window. *)
Theorem dead_node_events_monotone :
  forall now now' window window' m e,
    now <= now' -> window' <= window ->
    In e (_get_dead_node_event now window m) ->
    In e (_get_dead_node_event now' window' m).
Proof.
  intros now now' window window' m e Hn Hw H.
  apply in_dead_node_events in H as [x [Hx Hd]].
  unfold _get_dead_node_event; apply in_flat_map; exists x; split; [exact Hx |].
  assert (Hd' : dead_node_event now' window' x = Some e).
  { unfold dead_node_event in *.
    destruct (Z.ltb window (now - heartbeat_time x)) eqn:E.
    2:{ destruct (Z.ltb 0 (heartbeat_time x)); discriminate Hd. }
    assert (E' : Z.ltb window' (now' - heartbeat_time x) = true)
      by (apply Z.ltb_lt in E; apply Z.ltb_lt; lia).
    rewrite E'; exact Hd. }
  rewrite Hd'; left; reflexivity.
Qed.

Lemma dead_node_events_monotone_witness :
  In (mkEvent EvDeleted (set_exit_reason NoHeartbeat (set_status Failed beating_worker)))
     (_get_dead_node_event 4000 300 (sample_manager [beating_worker])).
Proof.
  apply (dead_node_events_monotone 3000 4000 600 300
           (sample_manager [beating_worker])); [lia | lia |].
  left; reflexivity.
Defined.

(** The events synthesised by [_get_dead_node_event] carry the positive
    exit [no_heartbeat]: processing them, as the heartbeat monitor does,
    never queries the cluster for pods. *)
Theorem dead_node_events_skip_pod_query :
  forall env now window m m' l,
    ~ In (QueryPods l)
         (snd (run (process_events env (_get_dead_node_event now window m)) m')).
Proof.
  intros env now window m m' l.
  assert (Hpos : Forall (fun e => is_positive_exit e.(ev_node).(exit_reason) = true)
                   (_get_dead_node_event now window m)).
  { apply Forall_forall; intros e He.
    apply in_dead_node_events in He as [x [_ Hd]].
    apply dead_node_event_some in Hd as [-> _]; reflexivity. }
  revert m' Hpos; generalize (_get_dead_node_event now window m) as es.
  intros es; induction es as [| e es IH]; intros m' Hpos; [intros [] |].
  inversion Hpos as [| e' es' He Hes]; subst.
  unfold run; simpl; unfold _process_event at 1.
  rewrite skip_deleted_event_positive by exact He.
  unfold bind at 1 2, ret; cbv beta iota zeta.
  pose proof (process_event_update_no_pod_query env e m' l) as Hq.
  destruct (process_event_update env e m') as [[u m1] t1]; simpl in Hq.
  specialize (IH m1 Hes); unfold run in IH.
  destruct (process_events env es m1) as [[u2 m2] t2]; simpl in *.
  rewrite in_app_iff; intros [H | H]; [exact (Hq H) | exact (IH H)].
Qed.

(** [collect_node_heart_beat] calls nothing and changes no other node; a
    missing node leaves the manager unchanged; a stored node that sent a
    heartbeat at [ts] is not reported dead at any [now] within the window
    after [ts]. *)
Theorem heartbeat_keeps_node_alive :
  forall t i ts m,
    let '(_, m1, tr) := run (collect_node_heart_beat t i ts) m in
    tr = []
    /\ (forall t' i', (t', i') <> (t, i) -> job_node m1 t' i' = job_node m t' i')
    /\ (job_node m t i = None -> m1 = m)
    /\ forall now window,
         job_node m t i <> None -> now - ts <= window ->
         forall e, In e (_get_dead_node_event now window m1) ->
                   node_key e.(ev_node) <> (t, i).
Proof.
  intros t i ts m; unfold run, collect_node_heart_beat, get, bind, modify, ret;
    cbv beta iota zeta.
  destruct (job_node m t i) as [node |] eqn:Hj.
  2:{ split; [reflexivity |]; split; [intros; reflexivity |].
      split; [reflexivity | intros now window H; contradiction H; reflexivity]. }
  destruct (job_node_key m t i node Hj) as [Kt Ki].
  split; [reflexivity |].
  split.
  { intros t' i' Hne; unfold job_node, update_job_node, with_nodes; simpl.
    apply find_store_put_other; simpl; rewrite Kt, Ki; intros H; apply Hne;
      injection H as -> ->; reflexivity. }
  split; [intros H; discriminate |].
  intros now window _ Hw e He Hk.
  apply in_dead_node_events in He as [x [Hx Hd]].
  apply dead_node_event_some in Hd as [He Hlt]; subst e.
  change (node_key x = (t, i)) in Hk.
  assert (Hxn : x = set_heartbeat_time ts node).
  { apply (store_put_same_key _ (job_nodes m)); [exact Hx |].
    apply same_key_eq; unfold node_key in Hk; injection Hk as H1 H2; simpl;
      split; congruence. }
  subst x; simpl in Hlt; lia.
Qed.

(** [process_reported_node_event] calls nothing, changes no node other
    than the reporting one, and leaves the store as it is when that node
    is not stored. *)
Theorem reported_event_touches_only_target :
  forall event m,
    let '(_, m1, tr) := run (process_reported_node_event event) m in
    tr = []
    /\ (forall t i, (t, i) <> node_key event.(ev_node) ->
          job_node m1 t i = job_node m t i)
    /\ (job_node m event.(ev_node).(n_type) event.(ev_node).(n_id) = None ->
        m1.(job_nodes) = m.(job_nodes)).
Proof.
  intros event m; unfold run, process_reported_node_event, get, bind, modify, ret;
    cbv beta iota zeta.
  destruct (job_node m _ _) as [target |] eqn:Hj.
  - destruct (job_node_key m _ _ target Hj) as [Kt Ki].
    destruct (NodeEventType_beq _ _); simpl.
    all: split; [reflexivity |]; split; [| intros H; discriminate].
    all: intros t i Hne; unfold job_node, update_job_node, update_job_stage,
           with_nodes; simpl; apply find_store_put_other; simpl;
         rewrite Kt, Ki; intros H; apply Hne; rewrite <- H; reflexivity.
  - destruct (NodeEventType_beq _ _); simpl.
    all: split; [reflexivity |]; split; [intros; reflexivity | reflexivity].
Qed.

Lemma max_id_of_type_fold :
  forall t l acc,
    acc <= fold_left (fun acc n => if NodeType_beq n.(n_type) t
                                   then Z.max acc n.(n_id) else acc) l acc
    /\ forall x, In x l -> n_type x = t ->
         n_id x <= fold_left (fun acc n => if NodeType_beq n.(n_type) t
                                           then Z.max acc n.(n_id) else acc) l acc.
Proof.
  intros t l; induction l as [| y l IH]; intros acc; simpl; [split; [lia | tauto] |].
  destruct (NodeType_beq (n_type y) t) eqn:Ey.
  - destruct (IH (Z.max acc (n_id y))) as [H1 H2]; split; [lia |].
    intros x [<- | Hx] Hxt; [lia | exact (H2 x Hx Hxt)].
  - destruct (IH acc) as [H1 H2]; split; [lia |].
    intros x [<- | Hx] Hxt; [| exact (H2 x Hx Hxt)].
    rewrite Hxt in Ey; destruct t; discriminate Ey.
Qed.

(** Every stored node of the type has an id below the fresh one. *)
Lemma max_id_of_type_fresh :
  forall t l x, In x l -> n_type x = t -> n_id x < max_id_of_type t l + 1.
Proof.
  intros t l x Hx Ht; unfold max_id_of_type.
  pose proof (proj2 (max_id_of_type_fold t l (-1)) x Hx Ht); lia.
Qed.

(** [_relaunch_node] stores the node with [relaunchable] cleared and
    makes two calls: the relaunch report naming the old node and its
    replacement, then the scale plan.  The plan launches the replacement,
    of the same type and with an id above every stored id of the type;
    its PS addresses are the PS manager's; and with [remove_exited_node]
    it removes the old node twice (once from [relaunch_node], once from
    the append), both entries seen with [relaunchable] cleared. *)
Theorem relaunch_node_plan_and_flag :
  forall env node m,
    let '(_, m1, tr) := run (_relaunch_node env node) m in
    job_node m1 node.(n_type) node.(n_id) = Some (set_relaunchable false node)
    /\ exists new_node p,
       tr = [ReportNodeRelaunch (node_key node) (node_key new_node); Scale p]
       /\ p.(launch_nodes) = [new_node]
       /\ new_node.(n_type) = node.(n_type)
       /\ (forall x, In x m.(job_nodes) -> x.(n_type) = node.(n_type) ->
             x.(n_id) < new_node.(n_id))
       /\ p.(ps_addrs) = env.(ps_addr_list)
       /\ p.(remove_nodes)
          = (if m.(remove_exited_node)
             then [set_relaunchable false node; set_relaunchable false node]
             else []).
Proof.
  intros env node m.
  assert (Hself : same_key (n_type node) (n_id node) node = true).
  { unfold same_key; rewrite Z.eqb_refl, andb_true_r.
    destruct (n_type node); reflexivity. }
  unfold run, _relaunch_node, relaunch_node, get, bind, modify, emit, ret;
    cbv beta iota zeta; simpl.
  split.
  { exact (job_node_update_job_node (set_relaunchable false node) _). }
  do 2 eexists; split; [reflexivity |]; simpl.
  split; [reflexivity |]; split; [reflexivity |].
  split; [intros x Hx Ht; exact (max_id_of_type_fresh _ _ x Hx Ht) |].
  split; [reflexivity |].
  destruct (remove_exited_node m); simpl; [rewrite Hself; reflexivity | reflexivity].
Qed.

Lemma update_info_max_relaunch_count :
  forall ev cur,
    (update_info ev cur).(max_relaunch_count) = cur.(max_relaunch_count).
Proof.
  intros ev cur; unfold update_info; split_ifs; reflexivity.
Qed.

Opaque update_info.

(** A diagnosis [NodeAction] on a running, relaunchable node with budget
    left, relaunch enabled and the job not stopping, fails the node with
    [diag_fail] and relaunches it: a plan launching one node is passed to
    the scaler and the stored node is failed, [diag_fail], not
    relaunchable, with one more relaunch.  The transition taken is the
    modelled [running -> failed] of a [DELETED] event. *)
Theorem diagnosed_running_node_is_relaunched :
  forall env m action target,
    job_node m action.(action_node_type) action.(action_node_id) = Some target ->
    target.(status) = Running ->
    target.(relaunchable) = true ->
    target.(relaunch_count) < target.(max_relaunch_count) ->
    m.(enable_relaunch_node) = true ->
    m.(job_stage) <> JobStopping ->
    let '(_, m', tr) := run (_process_node_action env action) m in
    (exists plan, In (Scale plan) tr /\ length plan.(launch_nodes) = 1%nat)
    /\ exists old,
         job_node m' action.(action_node_type) action.(action_node_id) = Some old
         /\ old.(status) = Failed /\ old.(exit_reason) = DiagFail
         /\ old.(relaunch_count) = target.(relaunch_count) + 1
         /\ old.(relaunchable) = false.
Proof.
  intros env m action target Hj Hrun Hrl Hbud Hen Hst.
  assert (Hst' : JobStage_beq (job_stage m) JobStopping = false)
    by (destruct (job_stage m); simpl; congruence).
  destruct (job_node_key m _ _ target Hj) as [Kt Ki].
  set (enode := set_exit_reason DiagFail (set_status Failed target)).
  destruct (update_info_keeps enode target) as [Hs [_ [Hty Hid]]].
  pose proof (update_info_relaunchable enode target) as Hrl'.
  pose proof (update_info_relaunch_count enode target) as Hrc0.
  assert (Hrc : relaunch_count (update_info enode target) = relaunch_count target)
    by (rewrite Hrc0; apply Z.max_id).
  clear Hrc0.
  pose proof (update_info_max_relaunch_count enode target) as Hmx.
  remember (update_info enode target) as cur1 eqn:Hcur1.
  assert (Hb : Z.geb (relaunch_count cur1) (max_relaunch_count cur1) = false).
  { rewrite Hrc, Hmx; simpl; rewrite Z.geb_leb; apply Z.leb_gt; exact Hbud. }
  unfold run, _process_node_action, _process_event_safely, get, bind, ret;
    cbv beta iota zeta; rewrite Hj.
  unfold _process_event; rewrite skip_deleted_event_positive by reflexivity.
  unfold process_event_update, get, bind, modify, ret; cbv beta iota zeta.
  cbn [ev_node event_type]; fold enode.
  assert (Et : n_type enode = action_node_type action) by exact Kt.
  assert (Ei : n_id enode = action_node_id action) by exact Ki.
  rewrite Et, Ei, Hj, <- Hcur1; simpl.
  rewrite Hs, Hrun; simpl.
  unfold _should_relaunch, recheck_relaunch, get, bind, ret, emit; simpl.
  rewrite Hrl', Hrl, Hen, Hst'; simpl.
  rewrite Hb; simpl.
  unfold _relaunch_node, relaunch_node, get, bind, ret, emit, modify,
    update_job_node, with_nodes; simpl.
  destruct (wait_pending_relaunch m); simpl; split.
  all: try (eexists; split;
            [repeat first [left; reflexivity | right] | reflexivity]).
  all: eexists; split; [rewrite <- Kt, <- Ki, <- Hty, <- Hid;
                        exact (find_store_put _ _) |].
  all: simpl; rewrite Hrc; repeat split; reflexivity.
Qed.

Lemma diagnosed_running_node_is_relaunched_witness :
  let '(_, m', tr) := run (_process_node_action sample_env (mkNodeAction Worker 4))
                          (sample_manager [sample_worker 4 Running]) in
  (exists plan, In (Scale plan) tr /\ length plan.(launch_nodes) = 1%nat)
  /\ exists old,
       job_node m' Worker 4 = Some old
       /\ old.(status) = Failed /\ old.(exit_reason) = DiagFail
       /\ old.(relaunch_count) = 0 + 1
       /\ old.(relaunchable) = false.
Proof.
  exact (diagnosed_running_node_is_relaunched sample_env
           (sample_manager [sample_worker 4 Running]) (mkNodeAction Worker 4)
           (sample_worker 4 Running) eq_refl eq_refl eq_refl eq_refl eq_refl
           ltac:(discriminate)).
Defined.

Transparent update_info.

Lemma dict_set_keys :
  forall V k (v : V) d k',
    In k' (map fst (dict_set k v d)) <-> k' = k \/ In k' (map fst d).
Proof.
  intros V k v d k'; induction d as [| [k0 v0] d IH]; simpl;
    [firstorder congruence |].
  destruct (Z.eqb k k0) eqn:E; simpl.
  - apply Z.eqb_eq in E; subst k0; firstorder congruence.
  - rewrite IH; tauto.
Qed.

Lemma dict_set_nodup :
  forall V k (v : V) d, NoDup (map fst d) -> NoDup (map fst (dict_set k v d)).
Proof.
  intros V k v d; induction d as [| [k0 v0] d IH]; simpl; intros H.
  - constructor; [intros [] | constructor].
  - inversion H as [| x l Hx Hd]; subst.
    destruct (Z.eqb k k0) eqn:E; simpl.
    + apply Z.eqb_eq in E; subst k0; constructor; assumption.
    + constructor; [| exact (IH Hd)].
      rewrite dict_set_keys; intros [Hk | Hk]; [| exact (Hx Hk)].
      subst k0; rewrite Z.eqb_refl in E; discriminate.
Qed.

Lemma dict_set_entries :
  forall V k (v : V) d k' v',
    In (k', v') (dict_set k v d) -> (k' = k /\ v' = v) \/ In (k', v') d.
Proof.
  intros V k v d k' v'; induction d as [| [k0 v0] d IH]; simpl.
  - intros [H | []]; injection H as -> ->; auto.
  - destruct (Z.eqb k k0); simpl.
    + intros [H | H]; [injection H as -> ->; auto | auto].
    + intros [H | H]; [auto |]; destruct (IH H) as [? | ?]; auto.
Qed.

(** [_get_nodes_time_info] is keyed by node id alone: one entry per
    distinct id of the store, each describing a stored node with that id,
    so nodes of different types sharing an id give one entry. *)
Theorem nodes_time_info_one_entry_per_id :
  forall m,
    let r := _get_nodes_time_info m in
    NoDup (map fst r)
    /\ (forall i, In i (map fst r) <-> In i (map n_id m.(job_nodes)))
    /\ (forall i v, In (i, v) r ->
          exists n, In n m.(job_nodes) /\ n.(n_id) = i /\ v = time_info n).
Proof.
  intros m; cbv zeta; unfold _get_nodes_time_info.
  assert (G : forall l acc,
    NoDup (map fst acc) ->
    let r := fold_left (fun result node =>
               dict_set (n_id node) (time_info node) result) l acc in
    NoDup (map fst r)
    /\ (forall i, In i (map fst r) <-> In i (map fst acc) \/ In i (map n_id l))
    /\ (forall i v, In (i, v) r ->
          In (i, v) acc \/ exists n, In n l /\ n.(n_id) = i /\ v = time_info n)).
  { intros l; induction l as [| x l IH]; intros acc Hacc; simpl.
    - split; [exact Hacc |]; split; [intros i; tauto | intros i v H; auto].
    - destruct (IH _ (dict_set_nodup _ (n_id x) (time_info x) acc Hacc))
        as [H1 [H2 H3]].
      split; [exact H1 |]; split.
      + intros i; rewrite H2, dict_set_keys; simpl.
        split; [intros [[-> | ?] | ?] | intros [? | [<- | ?]]]; auto.
      + intros i v H; destruct (H3 i v H) as [Ha | [n [Hn [Hi Hv]]]].
        * apply dict_set_entries in Ha as [[-> ->] | Ha]; [| auto].
          right; exists x; auto.
        * right; exists n; auto. }
  destruct (G (job_nodes m) [] (NoDup_nil _)) as [H1 [H2 H3]].
  split; [exact H1 |]; split.
  - intros i; rewrite H2; simpl; tauto.
  - intros i v H; destruct (H3 i v H) as [[] | Hn]; exact Hn.
Qed.

(** ** Relaunch counts over event histories *)

Lemma counts_grow_refl : forall m, counts_grow m m.
Proof. intros m t i n H; exists n; split; [exact H | lia]. Qed.

Lemma counts_grow_trans :
  forall m1 m2 m3, counts_grow m1 m2 -> counts_grow m2 m3 -> counts_grow m1 m3.
Proof.
  intros m1 m2 m3 H12 H23 t i n H.
  destruct (H12 t i n H) as [n2 [H2 L2]].
  destruct (H23 t i n2 H2) as [n3 [H3 L3]].
  exists n3; split; [exact H3 | lia].
Qed.

Lemma counts_grow_same_nodes :
  forall m m', m'.(job_nodes) = m.(job_nodes) -> counts_grow m m'.
Proof.
  intros m m' E t i n H; exists n; split; [unfold job_node in *; rewrite E; exact H | lia].
Qed.

Lemma counts_grow_put :
  forall n m,
    (forall c, job_node m n.(n_type) n.(n_id) = Some c ->
               c.(relaunch_count) <= n.(relaunch_count)) ->
    counts_grow m (update_job_node n m).
Proof.
  intros n m Hc t i c H.
  destruct (job_node_key m t i c H) as [Kt Ki].
  destruct (NodeType_eq_dec (n_type n) t) as [Et | Et];
  [destruct (Z.eq_dec (n_id n) i) as [Ei | Ei] |].
  - rewrite <- Et, <- Ei in H |- *; exists n;
      split; [apply job_node_update_job_node | exact (Hc c H)].
  - exists c; split; [| lia].
    unfold job_node, update_job_node, with_nodes; simpl.
    rewrite find_store_put_other; [exact H | intros E; injection E; congruence].
  - exists c; split; [| lia].
    unfold job_node, update_job_node, with_nodes; simpl.
    rewrite find_store_put_other; [exact H | intros E; injection E; congruence].
Qed.

Lemma in_store_put : forall n l x, In x (store_put n l) -> x = n \/ In x l.
Proof.
  intros n l x H; unfold store_put in H; destruct (existsb _ l).
  - apply in_map_iff in H as [y [<- Hy]].
    destruct (same_key _ _ y); auto.
  - apply in_app_iff in H as [H | [H | []]]; auto.
Qed.

Lemma budget_put :
  forall n m, within_budget n -> store_within_budget m ->
    store_within_budget (update_job_node n m).
Proof.
  intros n m Hn Hm x Hx; apply in_store_put in Hx as [-> | Hx]; auto.
Qed.

Lemma job_node_in : forall m t i n, job_node m t i = Some n -> In n m.(job_nodes).
Proof. intros m t i n H; unfold job_node in H; apply find_some in H; tauto. Qed.

(** The state after [_relaunch_node]. *)
Lemma relaunch_node_state :
  forall env node m,
    exists new_node,
      snd (fst (run (_relaunch_node env node) m))
      = update_job_node (set_relaunchable false node)
          (update_job_node new_node m)
      /\ new_node.(n_type) = node.(n_type)
      /\ (forall x, In x m.(job_nodes) -> x.(n_type) = node.(n_type) ->
            x.(n_id) < new_node.(n_id))
      /\ new_node.(relaunch_count) = node.(relaunch_count)
      /\ new_node.(max_relaunch_count) = node.(max_relaunch_count).
Proof.
  intros env node m.
  unfold run, _relaunch_node, relaunch_node, get, bind, modify, emit, ret;
    cbv beta iota zeta; simpl.
  eexists; split; [reflexivity |]; simpl.
  split; [reflexivity |]; split; [| split; reflexivity].
  intros x Hx Ht; exact (max_id_of_type_fresh _ _ x Hx Ht).
Qed.

Lemma relaunch_node_grows :
  forall env node m,
    (forall c, job_node m node.(n_type) node.(n_id) = Some c ->
               c.(relaunch_count) <= node.(relaunch_count)) ->
    counts_grow m (snd (fst (run (_relaunch_node env node) m))).
Proof.
  intros env node m Hc.
  destruct (relaunch_node_state env node m) as [nn [-> [Ht [Hfresh [Hrc _]]]]].
  apply counts_grow_trans with (update_job_node nn m).
  - apply counts_grow_put; intros c Hj.
    destruct (job_node_key m _ _ c Hj) as [Kt Ki].
    pose proof (Hfresh c (job_node_in _ _ _ _ Hj) ltac:(congruence)); lia.
  - apply counts_grow_put; intros c Hj;
      cbn [set_relaunchable n_type n_id relaunch_count] in Hj |- *.
    destruct (NodeType_eq_dec (n_type nn) (n_type node)) as [_ | E]; [| congruence].
    destruct (Z.eq_dec (n_id nn) (n_id node)) as [Ei | Ei].
    + rewrite <- Ht, <- Ei, job_node_update_job_node in Hj.
      injection Hj as <-; lia.
    + unfold job_node, update_job_node, with_nodes in Hj; simpl in Hj.
      rewrite find_store_put_other in Hj by (intros E; injection E; congruence).
      exact (Hc c Hj).
Qed.

Lemma relaunch_node_budget :
  forall env node m,
    within_budget node -> store_within_budget m ->
    store_within_budget (snd (fst (run (_relaunch_node env node) m))).
Proof.
  intros env node m Hn Hm.
  destruct (relaunch_node_state env node m) as [nn [-> [_ [_ [Hrc Hmx]]]]].
  apply budget_put; [exact Hn |].
  apply budget_put; [unfold within_budget in *; rewrite Hrc, Hmx; exact Hn | exact Hm].
Qed.

Lemma should_relaunch_key :
  forall env node flow m,
    let '(r, _, _) := run (_should_relaunch env node flow) m in
    (snd r).(n_type) = node.(n_type) /\ (snd r).(n_id) = node.(n_id).
Proof.
  intros env node flow m.
  unfold run; run_monad.
  destruct (fl_should_relaunch flow && enable_relaunch_node m
            && relaunchable node); simpl; [| auto].
  destruct (JobStage_beq (job_stage m) JobStopping); simpl; [auto |].
  destruct (exit_reason node); simpl; split_ifs; simpl; auto.
Qed.

Lemma budget_step_trans :
  forall e m m1 m2, budget_step e m m1 -> counts_grow m1 m2 ->
    (store_within_budget m1 -> e.(ev_node).(exit_reason) <> Killed ->
     store_within_budget m2) ->
    budget_step e m m2.
Proof.
  intros e m m1 m2 [G B] G2 B2; split.
  - exact (counts_grow_trans _ _ _ G G2).
  - intros H1 H2 H3; exact (B2 (B H1 H2 H3) H2).
Qed.

Lemma budget_nodes :
  forall m m', m'.(job_nodes) = m.(job_nodes) ->
    store_within_budget m -> store_within_budget m'.
Proof. intros m m' E H n Hn; rewrite E in Hn; exact (H n Hn). Qed.

Lemma job_node_nodes :
  forall m m' t i, m'.(job_nodes) = m.(job_nodes) -> job_node m' t i = job_node m t i.
Proof. intros m m' t i E; unfold job_node; rewrite E; reflexivity. Qed.

Lemma process_event_budget :
  forall env e m, budget_step e m (snd (fst (run (_process_event env e) m))).
Proof.
  intros env e m.
  destruct (skip_deleted_event_pure env e m) as [b [t [Hs _]]].
  unfold run, _process_event, bind at 1; unfold run in Hs; rewrite Hs.
  destruct b.
  { unfold ret; simpl; split; [apply counts_grow_refl | auto]. }
  unfold process_event_update, get, bind, modify, ret, emit; cbv beta iota zeta.
  destruct (job_node m _ _) as [cur |] eqn:Hj.
  2:{ simpl; split; [apply counts_grow_refl | auto]. }
  destruct (job_node_key m _ _ cur Hj) as [Kt Ki].
  set (cur1 := update_info (ev_node e) cur).
  set (m1 := update_job_node cur1 m).
  destruct (update_info_keeps (ev_node e) cur) as [_ [_ [K1t K1i]]].
  pose proof (update_info_relaunch_count (ev_node e) cur) as R1.
  pose proof (update_info_max_relaunch_count (ev_node e) cur) as X1.
  fold cur1 in K1t, K1i, R1, X1.
  assert (J1 : job_node m1 cur1.(n_type) cur1.(n_id) = Some cur1)
    by apply job_node_update_job_node.
  assert (F1 : budget_step e m m1).
  { split.
    - apply counts_grow_put; intros c Hc.
      rewrite K1t, K1i, Kt, Ki, Hj in Hc; injection Hc as <-; lia.
    - intros Hb Hk He; apply budget_put; [| exact Hb].
      pose proof (Hb cur (job_node_in _ _ _ _ Hj)) as Hc.
      pose proof (He cur Hj).
      unfold within_budget in *; lia. }
  destruct (NodeEventType_beq (event_type e) EvExit).
  { unfold close_job, emit, bind; cbv beta iota zeta; cbn [fst snd]; exact F1. }
  destruct (get_node_state_flow (status cur1) (event_type e) (status (ev_node e))) as [flow |].
  2:{ cbn [fst snd]; exact F1. }
  destruct (NodeStatus_beq (from_status flow) Succeeded).
  { cbn [fst snd]; exact F1. }
  set (cur2 := set_exit_reason (exit_reason (ev_node e)) (set_status (status (ev_node e)) cur1)).
  set (m2 := update_job_node cur2 m1).
  assert (J2 : job_node m2 cur2.(n_type) cur2.(n_id) = Some cur2)
    by apply job_node_update_job_node.
  assert (F2 : budget_step e m m2).
  { apply (budget_step_trans e m m1 m2 F1).
    - apply counts_grow_put; intros c Hc; exact (ltac:(
        cbn [cur2 set_exit_reason set_status n_type n_id] in Hc;
        rewrite J1 in Hc; injection Hc as <-; cbn; lia)).
    - intros Hb _; apply budget_put; [| exact Hb].
      pose proof (Hb cur1 (job_node_in _ _ _ _ J1)); exact H. }
  destruct (process_node_events_quiet flow m2) as [t1 [E1 _]]; rewrite E1.
  pose proof (should_relaunch_step env m2 cur2 flow) as Ss.
  pose proof (should_relaunch_key env cur2 flow m2) as Sk.
  unfold run in Ss, Sk.
  destruct (_should_relaunch env cur2 flow m2) as [[[sr cur3] m2'] t2].
  cbn [fst snd] in Ss, Sk; destruct Ss as [-> [Smx [Src Skill]]].
  destruct Sk as [K3t K3i].
  cbv beta iota zeta.
  set (m3 := update_job_node cur3 m2).
  assert (J3 : job_node m3 cur3.(n_type) cur3.(n_id) = Some cur3)
    by apply job_node_update_job_node.
  assert (F3 : budget_step e m m3).
  { apply (budget_step_trans e m m2 m3 F2).
    - apply counts_grow_put; intros c Hc.
      rewrite K3t, K3i, J2 in Hc; injection Hc as <-; destruct sr; lia.
    - intros Hb Hk; apply budget_put; [| exact Hb].
      pose proof (Hb cur2 (job_node_in _ _ _ _ J2)) as H2.
      unfold within_budget in *; rewrite Smx, Src.
      destruct sr; [| lia].
      destruct (Z_lt_le_dec (relaunch_count cur2) (max_relaunch_count cur2)); [lia |].
      exfalso; apply Hk; exact (Skill eq_refl l). }
  assert (Fin : forall m4, m4.(job_nodes) = m3.(job_nodes) ->
            budget_step e m m4 /\ budget_step e m
              (snd (fst (run (_relaunch_node env cur3) m4)))).
  { intros m4 E4.
    assert (F4 : budget_step e m m4).
    { apply (budget_step_trans e m m3 m4 F3);
        [apply counts_grow_same_nodes; exact E4 |
         intros Hb _; exact (budget_nodes m3 m4 E4 Hb)]. }
    split; [exact F4 |].
    apply (budget_step_trans e m m4 _ F4).
    - apply relaunch_node_grows; intros c Hc.
      rewrite (job_node_nodes m3 m4 _ _ E4), J3 in Hc; injection Hc as <-; lia.
    - intros Hb _; apply relaunch_node_budget; [| exact Hb].
      apply Hb; apply (job_node_in _ (n_type cur3) (n_id cur3)).
      rewrite (job_node_nodes m3 m4 _ _ E4); exact J3. }
  destruct sr; [destruct (wait_pending_relaunch m3) |]; cbn [andb]; cbv beta iota zeta.
  - destruct (Fin (incr_pending_relaunch_count m3) eq_refl) as [_ F5].
    unfold run in F5; destruct (_relaunch_node env cur3 _) as [[u m5] t5].
    exact F5.
  - destruct (Fin m3 eq_refl) as [_ F5].
    unfold run in F5; destruct (_relaunch_node env cur3 _) as [[u m5] t5].
    exact F5.
  - exact F3.
Qed.

Lemma process_events_budget :
  forall env events m,
    let m' := snd (fst (run (process_events env events) m)) in
    counts_grow m m'
    /\ (store_within_budget m ->
        Forall (fun e => e.(ev_node).(exit_reason) <> Killed) events ->
        events_within_budget env events m = true ->
        store_within_budget m').
Proof.
  intros env events; induction events as [| e es IH]; intros m; cbv zeta.
  - unfold run, process_events, ret; simpl; split; [apply counts_grow_refl | auto].
  - destruct (process_event_budget env e m) as [G B].
    set (m1 := snd (fst (run (_process_event env e) m))) in G, B.
    destruct (IH m1) as [G' B'].
    assert (E : snd (fst (run (process_events env (e :: es)) m))
                = snd (fst (run (process_events env es) m1))).
    { unfold m1, run; simpl process_events; unfold bind at 1.
      destruct (_process_event env e m) as [[u mm] tt0]; destruct u; simpl.
      destruct (process_events env es mm) as [[v mm'] tt1]; reflexivity. }
    rewrite E; split; [exact (counts_grow_trans _ _ _ G G') |].
    intros Hb Hk Hw; inversion Hk as [| ? ? Hk1 Hks]; subst.
    simpl in Hw; apply andb_prop in Hw as [Hw1 Hws].
    apply B'; [| exact Hks | exact Hws].
    apply B; [exact Hb | exact Hk1 |].
    intros n Hn; rewrite Hn in Hw1; apply Z.leb_le; exact Hw1.
Qed.

(** C2 (as amended): over any history of processed events, whatever its
    exit reasons, every stored node stays stored and its [relaunch_count]
    never decreases: [update_info] keeps the larger of the stored and the
    reported count, [_should_relaunch] adds zero or one, and a relaunched
    replica gets a fresh id.  [_should_relaunch] keeps [max_relaunch_count]
    and relaunches a node whose count has reached it only for the exit
    reason [killed].  Hence, for a history without [killed] exits whose
    events report counts within the stored maximum, a store whose nodes
    all have [relaunch_count <= max_relaunch_count <= 5] keeps every node
    at [relaunch_count <= min(max_relaunch_count, 5)]. *)
Theorem relaunch_count_bounded_without_killed :
  (forall env m node flow,
    let '(r, _, _) := run (_should_relaunch env node flow) m in
    (snd r).(relaunch_count)
      = node.(relaunch_count) + (if fst r then 1 else 0)
    /\ (snd r).(max_relaunch_count) = node.(max_relaunch_count)
    /\ (fst r = true -> node.(max_relaunch_count) <= node.(relaunch_count) ->
        node.(exit_reason) = Killed))
  /\
  (forall env events m,
    counts_grow m (snd (fst (run (process_events env events) m))))
  /\
  (forall env events m,
    store_within_budget m ->
    Forall (fun e => e.(ev_node).(exit_reason) <> Killed) events ->
    events_within_budget env events m = true ->
    forall n, In n (snd (fst (run (process_events env events) m))).(job_nodes) ->
      n.(relaunch_count) <= Z.min n.(max_relaunch_count) _MAX_POD_RELAUNCH_COUNT).
Proof.
  split; [| split].
  - intros env m node flow.
    pose proof (should_relaunch_step env m node flow) as Hs.
    destruct (run (_should_relaunch env node flow) m) as [[r m'] tr].
    destruct Hs as [_ [Hmax [Hrc Hk]]]; auto.
  - intros env events m; exact (proj1 (process_events_budget env events m)).
  - intros env events m Hb Hk Hw n Hn.
    pose proof (proj2 (process_events_budget env events m) Hb Hk Hw n Hn) as H.
    unfold within_budget in H; lia.
Qed.

Definition budget_history : list NodeEvent :=
  [mkEvent EvModified (set_exit_reason UnknownError (sample_worker 0 Failed))].

Lemma relaunch_count_bounded_without_killed_witness :
  (store_within_budget (sample_manager [sample_worker 0 Running])
   /\ Forall (fun e => e.(ev_node).(exit_reason) <> Killed) budget_history
   /\ events_within_budget sample_env budget_history
        (sample_manager [sample_worker 0 Running]) = true)
  /\ option_map relaunch_count
       (job_node (snd (fst (run (process_events sample_env budget_history)
                                 (sample_manager [sample_worker 0 Running]))))
          Worker 0) = Some 1
  /\ (forall n, In n (snd (fst (run (process_events sample_env budget_history)
                          (sample_manager [sample_worker 0 Running])))).(job_nodes) ->
        n.(relaunch_count) <= Z.min n.(max_relaunch_count) _MAX_POD_RELAUNCH_COUNT).
Proof.
  split; [split; [| split] | split].
  - intros n [<- | []]; unfold within_budget, _MAX_POD_RELAUNCH_COUNT; simpl; lia.
  - repeat constructor; discriminate.
  - vm_compute; reflexivity.
  - vm_compute; reflexivity.
  - apply (proj2 (proj2 relaunch_count_bounded_without_killed)).
    + intros n [<- | []]; unfold within_budget, _MAX_POD_RELAUNCH_COUNT; simpl; lia.
    + repeat constructor; discriminate.
    + vm_compute; reflexivity.
Defined.
